(** * sync_grafana_dashboards.py: a shallow embedding and its properties

    The script under [charts/victoria-metrics-k8s-stack/hack] downloads
    Grafana dashboards, patches them for the multicluster setting and
    writes one Helm template per dashboard.  This file embeds the script
    function by function and proves (or refutes) statements about it.

    Conventions of the embedding:
    - a Python [str] is a list of Unicode code points ([N]);
    - an exception is a value of [exn], and code that can raise returns a
      [result];
    - the third-party calls whose code is not part of the script
      ([json.loads], [yaml.full_load], [yaml.dump]) are the fields of the
      class [Library]; theorems hold for every implementation, and the
      instance [reference_library] is used to run the script on examples;
    - [main] threads a [world]: the files and directories on disk and the
      lines printed so far. *)

From Stdlib Require Import ZArith NArith List String Ascii Lia Bool DecimalString.
From stdpp Require Import base gmap.
Import ListNotations.

Local Open Scope N_scope.

(** ** Strings *)

Abbreviation str := (list N).

(** [py "abc"] is the Python literal ['abc']. *)
Definition py (s : string) : str :=
  List.map N_of_ascii (list_ascii_of_string s).
Arguments py s%_string : simpl never.

(** [pyq] reads a literal in which [~] stands for the double quote. *)
Definition pyq (s : string) : str :=
  List.map (fun c => if c =? 126 then 34 else c) (py s).
Arguments pyq s%_string : simpl never.

Definition nl : N := 10.
Definition dquote : N := 34.

Fixpoint str_eqb (a b : str) : bool :=
  match a, b with
  | [], [] => true
  | x :: a', y :: b' => (x =? y) && str_eqb a' b'
  | _, _ => false
  end.

(** [s.startswith(p)] *)
Fixpoint startswith (s p : str) {struct p} : bool :=
  match p, s with
  | [], _ => true
  | _ :: _, [] => false
  | a :: p', b :: s' => (a =? b) && startswith s' p'
  end.

(** [s.endswith(p)] *)
Definition endswith (s p : str) : bool := startswith (rev s) (rev p).

(** [sub in s] *)
Fixpoint contains (s sub : str) : bool :=
  startswith s sub ||
  match s with
  | [] => false
  | _ :: s' => contains s' sub
  end.

Fixpoint find_from (sub : str) (i : Z) (s : str) : Z :=
  if startswith s sub then i
  else match s with
       | [] => (-1)%Z
       | _ :: s' => find_from sub (i + 1)%Z s'
       end.

(** [s.find(sub)]: the lowest index of [sub], or [-1]. *)
Definition find (s sub : str) : Z := find_from sub 0%Z s.

(** [s.replace(old, new)]: the occurrences of [old] are taken from the
    left and do not overlap.  [skip] counts the characters of a matched
    occurrence that are still to be passed over. *)
Fixpoint replace_scan (old new : str) (skip : nat) (s : str) : str :=
  match s with
  | [] =>
      match skip, old with
      | O, [] => new
      | _, _ => []
      end
  | c :: s' =>
      match skip with
      | S k => replace_scan old new k s'
      | O =>
          if startswith s old then
            match old with
            | [] => new ++ c :: replace_scan old new 0 s'
            | _ :: o => new ++ replace_scan old new (length o) s'
            end
          else c :: replace_scan old new 0 s'
      end
  end.

Definition replace (s old new : str) : str := replace_scan old new 0 s.

(** [s.split(sep)] for a separator of one character. *)
Fixpoint split (s : str) (sep : N) : list str :=
  match s with
  | [] => [[]]
  | c :: s' =>
      if c =? sep then [] :: split s' sep
      else match split s' sep with
           | l :: ls => (c :: l) :: ls
           | [] => [[c]]
           end
  end.

(** [sep.join(l)] *)
Fixpoint join (sep : str) (l : list str) : str :=
  match l with
  | [] => []
  | [x] => x
  | x :: l' => x ++ sep ++ join sep l'
  end.

(** [c.isspace()] *)
Definition isspace (c : N) : bool :=
  ((9 <=? c) && (c <=? 13)) || ((28 <=? c) && (c <=? 32)) ||
  (c =? 133) || (c =? 160) || (c =? 5760) ||
  ((8192 <=? c) && (c <=? 8202)) || (c =? 8232) || (c =? 8233) ||
  (c =? 8239) || (c =? 8287) || (c =? 12288).

(** [s.lstrip()] *)
Fixpoint lstrip (s : str) : str :=
  match s with
  | c :: s' => if isspace c then lstrip s' else s
  | [] => []
  end.

(** [s[:k]] and [s[k:]]; a negative [k] counts from the end. *)
Definition slice_to (s : str) (k : Z) : str :=
  if (k <? 0)%Z then take (Z.to_nat (Z.of_nat (length s) + k)) s
  else take (Z.to_nat k) s.

Definition slice_from (s : str) (k : Z) : str :=
  if (k <? 0)%Z then drop (Z.to_nat (Z.of_nat (length s) + k)) s
  else drop (Z.to_nat k) s.

(** [c * n] for a one-character string [c] *)
Definition times (c : N) (n : nat) : str := repeat c n.

(** [str(n)] for an integer *)
Definition str_of_Z (n : Z) : str := py (NilZero.string_of_int (Z.to_int n)).

(** [os.path.basename(p)]: what follows the last slash. *)
Fixpoint basename_acc (acc p : str) : str :=
  match p with
  | [] => acc
  | c :: p' => if c =? 47 then basename_acc [] p' else basename_acc (acc ++ [c]) p'
  end.

Definition basename (p : str) : str := basename_acc [] p.


(** ** Exceptions *)

Inductive exn := ValueError | KeyError | TypeError | IndexError | AttributeError.

Inductive result (A : Type) :=
| Return (a : A)
| Raise (e : exn).
Arguments Return {A} a.
Arguments Raise {A} e.

Definition bind {A B : Type} (r : result A) (k : A -> result B) : result B :=
  match r with
  | Return a => k a
  | Raise e => Raise e
  end.

Notation "x <- r ;; k" := (bind r (fun x => k))
  (at level 100, r at next level, right associativity).

(** ** Python values

    What [json.loads] and [yaml.full_load] build.  A float is kept as the
    two things the script observes of it: the text [json.dumps] writes
    for it and its truth value. *)

Record pyfloat := { float_repr : str; float_bool : bool }.

#[warnings="-register-all"]
Inductive value :=
| VNone
| VBool (b : bool)
| VInt (n : Z)
| VFloat (f : pyfloat)
| VStr (s : str)
| VList (l : list value)
| VDict (d : list (str * value)).

(** A [dict] keeps its keys in insertion order, each key once. *)
Fixpoint dict_get {V : Type} (d : list (str * V)) (k : str) : option V :=
  match d with
  | [] => None
  | (k', v) :: d' => if str_eqb k' k then Some v else dict_get d' k
  end.

(** [d[k] = v]: an existing key keeps its place, a new one goes last. *)
Fixpoint dict_set {V : Type} (d : list (str * V)) (k : str) (v : V) : list (str * V) :=
  match d with
  | [] => [(k, v)]
  | (k', v') :: d' => if str_eqb k' k then (k', v) :: d' else (k', v') :: dict_set d' k v
  end.

(** [v[k]] for a string [k] *)
Definition getitem (v : value) (k : str) : result value :=
  match v with
  | VDict d =>
      match dict_get d k with
      | Some x => Return x
      | None => Raise KeyError
      end
  | _ => Raise TypeError
  end.

(** [v[k] = x] for a string [k], returning the updated [v] *)
Definition setitem (v : value) (k : str) (x : value) : result value :=
  match v with
  | VDict d => Return (VDict (dict_set d k x))
  | _ => Raise TypeError
  end.

(** [for x in v]: the elements of a list, the keys of a dict, the
    characters of a string. *)
Definition iterate (v : value) : result (list value) :=
  match v with
  | VList l => Return l
  | VDict d => Return (List.map (fun kv => VStr (fst kv)) d)
  | VStr s => Return (List.map (fun c => VStr [c]) s)
  | _ => Raise TypeError
  end.

(** [v == s] for a string literal [s] *)
Definition eq_str (v : value) (s : str) : bool :=
  match v with
  | VStr s' => str_eqb s' s
  | _ => false
  end.

(** [bool(v)] *)
Definition truthy (v : value) : bool :=
  match v with
  | VNone => false
  | VBool b => b
  | VInt n => negb (n =? 0)%Z
  | VFloat f => float_bool f
  | VStr s => negb (str_eqb s [])
  | VList l => match l with [] => false | _ => true end
  | VDict d => match d with [] => false | _ => true end
  end.

(** [d.get(k)]; only a dict has the method. *)
Definition dict_get_method (v : value) (k : str) : result value :=
  match v with
  | VDict d => Return (match dict_get d k with Some x => x | None => VNone end)
  | _ => Raise AttributeError
  end.

(** [d.items()] *)
Definition dict_items (v : value) : result (list (str * value)) :=
  match v with
  | VDict d => Return d
  | _ => Raise AttributeError
  end.

(** ** [json.dumps(v, indent=4)] *)

Definition hex_digit (n : N) : N := if n <? 10 then 48 + n else 87 + n.

(** ['\\u{0:04x}'.format(n)] for [n < 0x10000] *)
Definition escape_u (n : N) : str :=
  py "\u" ++ [hex_digit (n / 4096 mod 16); hex_digit (n / 256 mod 16);
              hex_digit (n / 16 mod 16); hex_digit (n mod 16)].

Definition encode_char (c : N) : str :=
  if c =? 92 then py "\\"
  else if c =? 34 then [92; 34]
  else if c =? 8 then py "\b"
  else if c =? 12 then py "\f"
  else if c =? 10 then py "\n"
  else if c =? 13 then py "\r"
  else if c =? 9 then py "\t"
  else if (32 <=? c) && (c <=? 126) then [c]
  else if c <? 65536 then escape_u c
  else escape_u (N.lor 55296 (N.land (N.shiftr (c - 65536) 10) 1023)) ++
       escape_u (N.lor 56320 (N.land (c - 65536) 1023)).

(** [py_encode_basestring_ascii] *)
Definition encode_str (s : str) : str :=
  [dquote] ++ concat (List.map encode_char s) ++ [dquote].

Definition newline_indent (level : nat) : str := nl :: times 32 (4 * level).

Fixpoint encode (level : nat) (v : value) : str :=
  match v with
  | VNone => py "null"
  | VBool true => py "true"
  | VBool false => py "false"
  | VInt n => str_of_Z n
  | VFloat f => float_repr f
  | VStr s => encode_str s
  | VList [] => py "[]"
  | VList l =>
      py "[" ++ newline_indent (S level) ++
      join (py "," ++ newline_indent (S level)) (List.map (encode (S level)) l) ++
      newline_indent level ++ py "]"
  | VDict [] => py "{}"
  | VDict d =>
      py "{" ++ newline_indent (S level) ++
      join (py "," ++ newline_indent (S level))
        (List.map (fun '(k, x) => encode_str k ++ py ": " ++ encode (S level) x) d) ++
      newline_indent level ++ py "}"
  end.

Definition json_dumps (v : value) : str := encode 0 v.

(** ** The libraries the script calls *)

Class Library := {
  (** [json.loads(text)]; a malformed text raises [ValueError]. *)
  json_loads : str -> result value;
  (** [yaml.full_load(text)] *)
  yaml_full_load : str -> result value;
  (** [yaml.dump({key: LiteralStr(content)}, width=1000,
      default_flow_style=False)] *)
  yaml_dump : str -> str -> str;
}.

(** ** The script: configuration *)

Record chart := { source : str; destination : str; type : str }.

(** Source files list *)
Definition charts : list chart := [
  {| source := py "https://raw.githubusercontent.com/prometheus-operator/kube-prometheus/master/manifests/grafana-dashboardDefinitions.yaml";
     destination := py "../templates/grafana/dashboards";
     type := py "yaml" |};
  {| source := py "https://etcd.io/docs/v3.4/op-guide/grafana.json";
     destination := py "../templates/grafana/dashboards";
     type := py "json" |};
  {| source := py "https://raw.githubusercontent.com/VictoriaMetrics/VictoriaMetrics/master/dashboards/victoriametrics.json";
     destination := py "../templates/grafana/dashboards";
     type := py "json" |};
  {| source := py "https://raw.githubusercontent.com/VictoriaMetrics/VictoriaMetrics/master/dashboards/vmagent.json";
     destination := py "../templates/grafana/dashboards";
     type := py "json" |};
  {| source := py "https://raw.githubusercontent.com/VictoriaMetrics/VictoriaMetrics/cluster/dashboards/clusterbytenant.json";
     destination := py "../templates/grafana/dashboards";
     type := py "json" |}
].

Definition skip_list : list str := [
  py "prometheus.json";
  py "prometheus-remote-write.json"
].

(** Additional conditions map *)
Definition condition_map : list (str * str) := [
  (py "grafana-coredns-k8s", py " .Values.coreDns.enabled");
  (py "etcd", py " .Values.kubeEtcd.enabled");
  (py "apiserver", py " .Values.kubeApiServer.enabled");
  (py "controller-manager", py " .Values.kubeControllerManager.enabled");
  (py "kubelet", py " .Values.kubelet.enabled");
  (py "proxy", py " .Values.kubeProxy.enabled");
  (py "scheduler", py " .Values.kubeScheduler.enabled");
  (py "node-rsrc-use", pyq " (index .Values ~prometheus-node-exporter~ ~enabled~)");
  (py "node-cluster-rsrc-use", pyq " (index .Values ~prometheus-node-exporter~ ~enabled~)");
  (py "clusterbytenant", py " .Values.vmcluster.enabled")
].

(** standard header ([~] is the double quote) *)
Definition header : str := pyq "{{- /*
Generated from '%(name)s' from %(url)s
Do not change in-place! In order to change this file first read following link:
https://github.com/VictoriaMetrics/helm-charts/tree/master/charts/victoria-metrics-k8s-stack/hack
*/ -}}
{{- if and .Values.grafana.enabled .Values.grafana.defaultDashboardsEnabled%(condition)s }}
apiVersion: v1
kind: ConfigMap
metadata:
  namespace: {{ .Release.Namespace }}
  name: {{ printf ~%%s-%%s~ (include ~victoria-metrics-k8s-stack.fullname~ $) ~%(name)s~ | trunc 63 | trimSuffix ~-~ }}
  labels:
    {{- if $.Values.grafana.sidecar.dashboards.label }}
    {{ $.Values.grafana.sidecar.dashboards.label }}: ~1~
    {{- end }}
    app: {{ include ~victoria-metrics-k8s-stack.name~ $ }}-grafana
{{ include ~victoria-metrics-k8s-stack.labels~ $ | indent 4 }}
data:
".

(** ** [template % mapping]

    The conversions the script uses: [%(key)s] and [%%].  A key that the
    mapping lacks raises [KeyError], any other conversion [ValueError]. *)

Inductive format_state :=
| FText
| FPercent
| FKey (key : str)
| FConversion (v : str).

Fixpoint format_from (mapping : list (str * str)) (st : format_state) (template : str)
  : result str :=
  match template with
  | [] =>
      match st with
      | FText => Return []
      | _ => Raise ValueError
      end
  | c :: t =>
      match st with
      | FText =>
          if c =? 37 then format_from mapping FPercent t
          else r <- format_from mapping FText t ;; Return (c :: r)
      | FPercent =>
          if c =? 37 then r <- format_from mapping FText t ;; Return (c :: r)
          else if c =? 40 then format_from mapping (FKey []) t
          else Raise ValueError
      | FKey key =>
          if c =? 41 then
            match dict_get mapping key with
            | Some v => format_from mapping (FConversion v) t
            | None => Raise KeyError
            end
          else format_from mapping (FKey (key ++ [c])) t
      | FConversion v =>
          if c =? 115 then r <- format_from mapping FText t ;; Return (v ++ r)
          else Raise ValueError
      end
  end.

Definition format (template : str) (mapping : list (str * str)) : result str :=
  format_from mapping FText template.

(** ** The script: escaping *)

Definition escape (s : str) : str :=
  replace (replace (replace (replace s (py "{{") (py "{{`{{"))
                            (py "}}") (py "}}`}}"))
                   (py "{{`{{") (py "{{`{{`}}"))
          (py "}}`}}") (py "{{`}}`}}").

Definition unescape (s : str) : str :=
  replace (replace s (py "\{\{") (py "{{")) (py "\}\}") (py "}}").

(** [str.splitlines(True)]: the lines with their line ends. *)
Definition is_linebreak (c : N) : bool :=
  ((10 <=? c) && (c <=? 13)) || ((28 <=? c) && (c <=? 30)) ||
  (c =? 133) || (c =? 8232) || (c =? 8233).

Fixpoint splitlines_from (cur s : str) : list str :=
  match s with
  | [] =>
      match cur with
      | [] => []
      | _ => [cur]
      end
  | c :: s' =>
      if c =? 13 then
        match s' with
        | 10 :: s'' => (cur ++ [13; 10]) :: splitlines_from [] s''
        | _ => (cur ++ [13]) :: splitlines_from [] s'
        end
      else if is_linebreak c then (cur ++ [c]) :: splitlines_from [] s'
      else splitlines_from (cur ++ [c]) s'
  end.

(** [textwrap.indent(text, prefix)]: the prefix goes before every line
    that is not made of whitespace only. *)
Definition textwrap_indent (text prefix : str) : str :=
  concat (List.map (fun line => if forallb isspace line then line else prefix ++ line)
            (splitlines_from [] text)).

(** ** The script: the multicluster patch *)

Definition sentinel : str := py ":multicluster:".

Definition multicluster_expr : str :=
  py "\{\{ if .Values.grafana.sidecar.dashboards.multicluster \}\}0\{\{ else \}\}2\{\{ end \}\}".

(** The loop over [content_struct['templating']['list']]: the updated
    variables, in order. *)
Fixpoint patch_variables (variables : list value) : result (list value) :=
  match variables with
  | [] => Return []
  | variable :: rest =>
      name <- getitem variable (py "name") ;;
      variable' <- (if eq_str name (py "cluster")
                    then setitem variable (py "hide") (VStr sentinel)
                    else Return variable) ;;
      overwrite_list <- patch_variables rest ;;
      Return (variable' :: overwrite_list)
  end.

(** One turn of the loop over the lines of the dumped structure: the
    lines it appends to [content_array]. *)
Definition reconcile_line (original_content_lines : list str) (i : nat) (line : str)
  : result (list str) :=
  keep <- (if negb (contains line (py "[]")) && negb (contains line (py "{}"))
           then Return true
           else match nth_error original_content_lines i with
                | Some original => Return (str_eqb line original)
                | None => Raise IndexError
                end) ;;
  if keep : bool then Return [line]
  else
    let '(line, append) :=
      if endswith line (py ",") then (slice_to line (-1), py ",") else (line, []) in
    if endswith line (py "{}") || endswith line (py "[]") then
      Return [slice_to line (-1);
              [];
              times 32 (length line - length (lstrip line)) ++ slice_from line (-1) ++ append]
    else Return [].

Fixpoint reconcile (original_content_lines : list str) (i : nat) (lines : list str)
  : result (list str) :=
  match lines with
  | [] => Return []
  | line :: rest =>
      out <- reconcile_line original_content_lines i line ;;
      content_array <- reconcile original_content_lines (S i) rest ;;
      Return (out ++ content_array)
  end.

(** Lines 150 to 156: the first sentinel, with one character on each
    side, makes room for the Helm expression. *)
Definition replace_multicluster (content : str) : str :=
  let multicluster := find content sentinel in
  if (multicluster =? -1)%Z then content
  else slice_to content (multicluster - 1) ++ multicluster_expr ++
       slice_from content (multicluster + 15).

(** Lines 125 to 130: every variable named [cluster] gets the sentinel
    as its [hide], and the list is put back. *)
Definition patch_struct (content_struct : value) : result value :=
  templating <- getitem content_struct (py "templating") ;;
  variables <- getitem templating (py "list") ;;
  variables <- iterate variables ;;
  overwrite_list <- patch_variables variables ;;
  templating <- setitem templating (py "list") (VList overwrite_list) ;;
  setitem content_struct (py "templating") templating.

Section Script.
Context `{Library}.

(** Lines 124 to 148: the text rebuilt from the dumped structure. *)
Definition reconstructed (content : str) : result str :=
  content_struct <- json_loads content ;;
  content_struct <- patch_struct content_struct ;;
  content_array <- reconcile (split content nl) 0 (split (json_dumps content_struct) nl) ;;
  Return (join [nl] content_array).

(** The body of the [try] block. *)
Definition patch_body (content : str) : result str :=
  content <- reconstructed content ;;
  Return (replace_multicluster content).

Definition patch_json_for_multicluster_configuration (content : str) : result str :=
  match patch_body content with
  | Return patched => Return patched
  | Raise ValueError | Raise KeyError => Return content
  | Raise e => Raise e
  end.

End Script.

(** ** The world the script acts on *)

Record world := {
  files : gmap str str;   (** path to content *)
  dirs : gset str;        (** directories made by [makedirs] *)
  stdout : list str;      (** the lines printed, oldest first *)
}.

Definition io (A : Type) : Type := world -> result A * world.

Definition io_return {A : Type} (a : A) : io A := fun w => (Return a, w).

Definition io_bind {A B : Type} (m : io A) (k : A -> io B) : io B :=
  fun w =>
    match m w with
    | (Return a, w') => k a w'
    | (Raise e, w') => (Raise e, w')
    end.

Notation "x <-- m ;; k" := (io_bind m (fun x => k))
  (at level 100, m at next level, right associativity).

Definition lift {A : Type} (r : result A) : io A := fun w => (r, w).

Definition print (line : str) : io unit :=
  fun w => (Return tt, {| files := files w; dirs := dirs w; stdout := stdout w ++ [line] |}).

(** [makedirs(destination, exist_ok=True)] *)
Definition makedirs (d : str) : io unit :=
  fun w => (Return tt, {| files := files w; dirs := {[d]} ∪ dirs w; stdout := stdout w |}).

(** [with open(name, 'w') as f: f.write(lines)] *)
Definition write_file (name lines : str) : io unit :=
  fun w => (Return tt, {| files := <[name := lines]> (files w); dirs := dirs w;
                          stdout := stdout w |}).

Fixpoint for_each {A : Type} (l : list A) (body : A -> io unit) : io unit :=
  match l with
  | [] => io_return tt
  | x :: l' => _ <-- body x ;; for_each l' body
  end.

Record response := { status_code : Z; text : str }.

Section Emit.
Context `{Library}.

(** [yaml_str_repr({key: LiteralStr(content)})], with [indent=2] *)
Definition yaml_str_repr (key content : str) : str :=
  let text := yaml_dump key content in
  let text := escape text in
  let text := unescape text in
  textwrap_indent text (times 32 2).

Definition condition_for (resource_name : str) : str :=
  match dict_get condition_map resource_name with
  | Some condition => condition
  | None => []
  end.

(** The text [write_group_to_file] writes. *)
Definition group_lines (resource_name content url : str) : result str :=
  lines <- format header [(py "name", resource_name); (py "url", url);
                          (py "condition", condition_for resource_name)] ;;
  content <- patch_json_for_multicluster_configuration content ;;
  let lines := lines ++ yaml_str_repr (resource_name ++ py ".json") content in
  Return (lines ++ py "{{- end }}").

Definition write_group_to_file (resource_name content url destination : str) : io unit :=
  lines <-- lift (group_lines resource_name content url) ;;
  let filename := resource_name ++ py ".yaml" in
  let new_filename := destination ++ py "/" ++ filename in
  _ <-- makedirs destination ;;
  _ <-- write_file new_filename lines ;;
  print (py "Generated " ++ new_filename).

(** The body of the inner loop of the [yaml] branch; a content that is
    not a string makes [json.loads] raise [TypeError]. *)
Definition process_yaml_item (c : chart) (item : str * value) : io unit :=
  let '(resource, content) := item in
  if existsb (str_eqb resource) skip_list then io_return tt
  else
    match content with
    | VStr content =>
        write_group_to_file (replace resource (py ".json") []) content
          (source c) (destination c)
    | _ => lift (Raise TypeError)
    end.

(** The [yaml] branch of [main]. *)
Definition process_yaml (c : chart) (raw_text : str) : io unit :=
  yaml_text <-- lift (yaml_full_load raw_text) ;;
  groups <-- lift (getitem yaml_text (py "items")) ;;
  groups <-- lift (iterate groups) ;;
  for_each groups (fun group =>
    data <-- lift (getitem group (py "data")) ;;
    items <-- lift (dict_items data) ;;
    for_each items (process_yaml_item c)).

(** The body of the loop over a nested JSON object. *)
Definition process_json_item (c : chart) (item : str * value) : io unit :=
  let '(resource, content) := item in
  write_group_to_file (replace resource (py ".json") []) (json_dumps content)
    (source c) (destination c).

(** The [json] branch of [main]. *)
Definition process_json (c : chart) (raw_text : str) : io unit :=
  json_text <-- lift (json_loads raw_text) ;;
  annotations <-- lift (dict_get_method json_text (py "annotations")) ;;
  let flat_structure := truthy annotations in
  if flat_structure then
    let resource := replace (basename (source c)) (py ".json") [] in
    write_group_to_file resource (json_dumps json_text) (source c) (destination c)
  else
    items <-- lift (dict_items json_text) ;;
    for_each items (process_json_item c).

(** One turn of the loop of [main].  [get] is [requests.get].
    ([init_yaml_styles], which [main] calls first, registers the literal
    style for [LiteralStr]; it is part of what [yaml_dump] stands for.) *)
Definition process_chart (get : str -> response) (c : chart) : io unit :=
  _ <-- print (py "Generating dashboards from " ++ source c) ;;
  let response := get (source c) in
  if negb (status_code response =? 200)%Z then
    print (py "Skipping the file, response code " ++ str_of_Z (status_code response) ++
           py " not equals 200")
  else
    let raw_text := text response in
    if str_eqb (type c) (py "yaml") then process_yaml c raw_text
    else if str_eqb (type c) (py "json") then process_json c raw_text
    else io_return tt.

Definition main_loop (get : str -> response) (cs : list chart) : io unit :=
  for_each cs (process_chart get).

Definition main (get : str -> response) : io unit :=
  _ <-- main_loop get charts ;;
  print (py "Finished").

End Emit.

(** ** A reference implementation of the libraries

    Used to run the script on examples.  [json.loads] follows the
    grammar of CPython's decoder; a float keeps its literal as the text
    to dump (exact for literals already in Python's shortest form).
    [yaml.dump] is PyYAML's literal block style, which is how it writes a
    [LiteralStr] made of printable ASCII lines without trailing spaces.
    [yaml.full_load] is given YAML documents written in JSON syntax. *)

Module Reference.

Definition is_ws (c : N) : bool := (c =? 32) || (c =? 9) || (c =? 10) || (c =? 13).

Fixpoint skip_ws (s : str) : str :=
  match s with
  | c :: s' => if is_ws c then skip_ws s' else s
  | [] => []
  end.

Definition is_digit (c : N) : bool := (48 <=? c) && (c <=? 57).

Fixpoint span (p : N -> bool) (s : str) : str * str :=
  match s with
  | c :: s' => if p c then let '(a, b) := span p s' in (c :: a, b) else ([], s)
  | [] => ([], [])
  end.

Definition hex_value (c : N) : option N :=
  if is_digit c then Some (c - 48)
  else if (97 <=? c) && (c <=? 102) then Some (c - 87)
  else if (65 <=? c) && (c <=? 70) then Some (c - 55)
  else None.

Definition parse_hex4 (s : str) : option (N * str) :=
  match s with
  | a :: b :: c :: d :: r =>
      match hex_value a, hex_value b, hex_value c, hex_value d with
      | Some a, Some b, Some c, Some d => Some (a * 4096 + b * 256 + c * 16 + d, r)
      | _, _, _, _ => None
      end
  | _ => None
  end.

Definition simple_escape (c : N) : option N :=
  if c =? 34 then Some 34
  else if c =? 92 then Some 92
  else if c =? 47 then Some 47
  else if c =? 98 then Some 8
  else if c =? 102 then Some 12
  else if c =? 110 then Some 10
  else if c =? 114 then Some 13
  else if c =? 116 then Some 9
  else None.

(** The string after its opening quote: its characters and what follows
    the closing quote. *)
Fixpoint scan_string (fuel : nat) (acc s : str) : option (str * str) :=
  match fuel with
  | O => None
  | S fuel =>
      match s with
      | [] => None
      | 34 :: r => Some (acc, r)
      | 92 :: 117 :: r =>
          match parse_hex4 r with
          | None => None
          | Some (uni, r') =>
              if (55296 <=? uni) && (uni <=? 56319) && startswith r' (py "\u") then
                match parse_hex4 (drop 2 r') with
                | None => None
                | Some (uni2, r'') =>
                    if (56320 <=? uni2) && (uni2 <=? 57343) then
                      scan_string fuel
                        (acc ++ [65536 + N.lor (N.shiftl (uni - 55296) 10) (uni2 - 56320)]) r''
                    else scan_string fuel (acc ++ [uni]) r'
                end
              else scan_string fuel (acc ++ [uni]) r'
          end
      | 92 :: e :: r =>
          match simple_escape e with
          | Some c => scan_string fuel (acc ++ [c]) r
          | None => None
          end
      | c :: r => if c <? 32 then None else if c =? 92 then None else scan_string fuel (acc ++ [c]) r
      end
  end.

Definition digits_value (ds : str) : Z :=
  fold_left (fun acc d => (acc * 10 + Z.of_N (d - 48))%Z) ds 0%Z.

(** A number: an optional minus sign, an integer part without leading
    zeros, an optional fraction and an optional exponent. *)
Definition scan_number (s : str) : option (value * str) :=
  let '(sign, s1) := match s with 45 :: r => ([45], r) | _ => ([], s) end in
  let '(int, s2) := match s1 with
                    | 48 :: r => ([48], r)
                    | _ => span is_digit s1
                    end in
  match int with
  | [] => None
  | _ =>
      let '(frac, s3) := match s2 with
                         | 46 :: r =>
                             match span is_digit r with
                             | ([], _) => ([], s2)
                             | (ds, r') => (46 :: ds, r')
                             end
                         | _ => ([], s2)
                         end in
      let '(exp, s4) := match s3 with
                        | e :: r =>
                            if (e =? 101) || (e =? 69) then
                              let '(sg, r1) := match r with
                                               | 43 :: r1 => ([43], r1)
                                               | 45 :: r1 => ([45], r1)
                                               | _ => ([], r)
                                               end in
                              match span is_digit r1 with
                              | ([], _) => ([], s3)
                              | (ds, r') => (e :: sg ++ ds, r')
                              end
                            else ([], s3)
                        | [] => ([], s3)
                        end in
      match frac, exp with
      | [], [] =>
          Some (VInt (match sign with [] => digits_value int | _ => - digits_value int end)%Z,
                s4)
      | _, _ =>
          Some (VFloat {| float_repr := sign ++ int ++ frac ++ exp;
                          float_bool := existsb (fun d => is_digit d && negb (d =? 48))
                                          (int ++ frac) |}, s4)
      end
  end.

Definition scan_literal (s : str) : option (value * str) :=
  let lit (name : str) (v : value) :=
    if startswith s name then Some (v, drop (length name) s) else None in
  match lit (py "null") VNone with Some r => Some r | None =>
  match lit (py "true") (VBool true) with Some r => Some r | None =>
  match lit (py "false") (VBool false) with Some r => Some r | None =>
  match scan_number s with Some r => Some r | None =>
  match lit (py "NaN") (VFloat {| float_repr := py "NaN"; float_bool := true |}) with
  | Some r => Some r | None =>
  match lit (py "Infinity") (VFloat {| float_repr := py "Infinity"; float_bool := true |}) with
  | Some r => Some r | None =>
  lit (py "-Infinity") (VFloat {| float_repr := py "-Infinity"; float_bool := true |})
  end end end end end end.

Fixpoint scan_value (fuel : nat) (s : str) {struct fuel} : option (value * str) :=
  match fuel with
  | O => None
  | S fuel =>
      match s with
      | 34 :: r =>
          match scan_string (length r) [] r with
          | Some (x, r') => Some (VStr x, r')
          | None => None
          end
      | 123 :: r =>
          match skip_ws r with
          | 125 :: r' => Some (VDict [], r')
          | r' => scan_members fuel [] r'
          end
      | 91 :: r =>
          match skip_ws r with
          | 93 :: r' => Some (VList [], r')
          | r' => scan_elements fuel [] r'
          end
      | _ => scan_literal s
      end
  end
with scan_members (fuel : nat) (acc : list (str * value)) (s : str) {struct fuel}
  : option (value * str) :=
  match fuel with
  | O => None
  | S fuel =>
      match s with
      | 34 :: r =>
          match scan_string (length r) [] r with
          | None => None
          | Some (key, r1) =>
              match skip_ws r1 with
              | 58 :: r2 =>
                  match scan_value fuel (skip_ws r2) with
                  | None => None
                  | Some (v, r3) =>
                      let acc := dict_set acc key v in
                      match skip_ws r3 with
                      | 125 :: r4 => Some (VDict acc, r4)
                      | 44 :: r4 => scan_members fuel acc (skip_ws r4)
                      | _ => None
                      end
                  end
              | _ => None
              end
          end
      | _ => None
      end
  end
with scan_elements (fuel : nat) (acc : list value) (s : str) {struct fuel}
  : option (value * str) :=
  match fuel with
  | O => None
  | S fuel =>
      match scan_value fuel s with
      | None => None
      | Some (v, r) =>
          match skip_ws r with
          | 93 :: r' => Some (VList (acc ++ [v]), r')
          | 44 :: r' => scan_elements fuel (acc ++ [v]) (skip_ws r')
          | _ => None
          end
      end
  end.

Definition loads (s : str) : result value :=
  match s with
  | 65279 :: _ => Raise ValueError
  | _ =>
      match scan_value (2 * length s + 2) (skip_ws s) with
      | Some (v, r) =>
          match skip_ws r with
          | [] => Return v
          | _ => Raise ValueError
          end
      | None => Raise ValueError
      end
  end.

Definition dump_literal (key content : str) : str :=
  let ends_nl := endswith content [nl] in
  let hints :=
    if negb ends_nl then py "-"
    else if (length content =? 1)%nat || endswith content [nl; nl] then py "+"
    else [] in
  let body := if ends_nl then slice_to content (-1) else content in
  key ++ py ": |" ++ hints ++ [nl] ++
  concat (List.map (fun line => match line with
                                | [] => [nl]
                                | _ => times 32 2 ++ line ++ [nl]
                                end) (split body nl)).

End Reference.

#[export] Instance reference_library : Library := {
  json_loads := Reference.loads;
  yaml_full_load := Reference.loads;
  yaml_dump := Reference.dump_literal;
}.

(** ** Vocabulary of the statements *)

(** The three parts of the formatted header: the provenance comment, the
    guard with its extra clause, and the body of the ConfigMap. *)
Definition header_top (name url : str) : str :=
  py "{{- /*
Generated from '" ++ name ++ py "' from " ++ url ++ py "
Do not change in-place! In order to change this file first read following link:
https://github.com/VictoriaMetrics/helm-charts/tree/master/charts/victoria-metrics-k8s-stack/hack
*/ -}}
".

Definition guard (condition : str) : str :=
  py "{{- if and .Values.grafana.enabled .Values.grafana.defaultDashboardsEnabled" ++
  condition ++ py " }}".

Definition header_rest (name : str) : str := pyq "
apiVersion: v1
kind: ConfigMap
metadata:
  namespace: {{ .Release.Namespace }}
  name: {{ printf ~%s-%s~ (include ~victoria-metrics-k8s-stack.fullname~ $) ~" ++ name ++ pyq "~ | trunc 63 | trimSuffix ~-~ }}
  labels:
    {{- if $.Values.grafana.sidecar.dashboards.label }}
    {{ $.Values.grafana.sidecar.dashboards.label }}: ~1~
    {{- end }}
    app: {{ include ~victoria-metrics-k8s-stack.name~ $ }}-grafana
{{ include ~victoria-metrics-k8s-stack.labels~ $ | indent 4 }}
data:
".

(** The path [write_group_to_file] writes to. *)
Definition output_path (destination resource_name : str) : str :=
  destination ++ py "/" ++ resource_name ++ py ".yaml".

(** The world after a source was skipped for its status code. *)
Definition skipped (w : world) (c : chart) (status : Z) : world :=
  {| files := files w;
     dirs := dirs w;
     stdout := stdout w ++
       [py "Generating dashboards from " ++ source c;
        py "Skipping the file, response code " ++ str_of_Z status ++ py " not equals 200"] |}.

(** What a run does to the world, when it does not depend on the world
    it starts from: the files it writes in order, the directories it
    makes and the lines it prints. *)
Record effect := {
  writes : list (str * str);
  made : gset str;
  printed : list str;
}.

Definition write_all (ws : list (str * str)) (m : gmap str str) : gmap str str :=
  fold_left (fun m kv => <[kv.1 := kv.2]> m) ws m.

Definition apply_effect (e : effect) (w : world) : world :=
  {| files := write_all (writes e) (files w);
     dirs := made e ∪ dirs w;
     stdout := stdout w ++ printed e |}.

Definition uniform {A : Type} (m : io A) : Prop :=
  exists (r : result A) (e : effect), forall w, m w = (r, apply_effect e w).

(** A server that has one document and answers 404 for the rest. *)
Definition serve (url body : str) : str -> response :=
  fun u => if str_eqb u url then {| status_code := 200; text := body |}
           else {| status_code := 404; text := [] |}.

Definition empty_world : world := {| files := ∅; dirs := ∅; stdout := [] |}.

(** A server that answers every request with the same response. *)
Definition always (status : Z) (body : str) : str -> response :=
  fun _ => {| status_code := status; text := body |}.

(** [c] is not a character of [sub]. *)
Definition avoids (sub : str) (c : N) : bool := forallb (fun a => negb (a =? c)) sub.

(** The dashboard has a [templating.list] entry whose [name] is
    [cluster]. *)
Definition has_cluster_variable (dashboard : value) : bool :=
  match getitem dashboard (py "templating") with
  | Return templating =>
      match getitem templating (py "list") with
      | Return (VList variables) =>
          existsb (fun variable =>
                     match getitem variable (py "name") with
                     | Return name => eq_str name (py "cluster")
                     | Raise _ => false
                     end) variables
      | _ => false
      end
  | Raise _ => false
  end.

(** The two empty literals, by their brackets, and the optional trailing
    comma of a dumped line. *)
Definition bracket_open (curly : bool) : N := if curly then 123 else 91.
Definition bracket_close (curly : bool) : N := if curly then 125 else 93.
Definition trailing_comma (comma : bool) : str := if comma then [44] else [].

(** What the spec asks of the emit step, read as one pass from the left:
    a backslash-escaped pair becomes the plain pair, any other pair of
    braces is wrapped for the engine, and the rest is copied. *)
Fixpoint escape_spec_scan (skip : nat) (s : str) : str :=
  match s with
  | [] => []
  | c :: s' =>
      match skip with
      | S k => escape_spec_scan k s'
      | O =>
          if startswith s (py "\{\{") then py "{{" ++ escape_spec_scan 3 s'
          else if startswith s (py "\}\}") then py "}}" ++ escape_spec_scan 3 s'
          else if startswith s (py "{{") then py "{{`{{`}}" ++ escape_spec_scan 1 s'
          else if startswith s (py "}}") then py "{{`}}`}}" ++ escape_spec_scan 1 s'
          else c :: escape_spec_scan 0 s'
      end
  end.

Definition escape_spec (s : str) : str := escape_spec_scan 0 s.

(** What the loop makes of one variable. *)
Inductive patched_variable : value -> value -> Prop :=
| patched_cluster (d : list (str * value)) (name : value) :
    dict_get d (py "name") = Some name ->
    eq_str name (py "cluster") = true ->
    patched_variable (VDict d) (VDict (dict_set d (py "hide") (VStr sentinel)))
| patched_other (d : list (str * value)) (name : value) :
    dict_get d (py "name") = Some name ->
    eq_str name (py "cluster") = false ->
    patched_variable (VDict d) (VDict d).

(** The texts on which the chain of replacements meets nothing it wrote
    itself: no opening pair directly before [`}}] or [}`}}], and no
    escaped pair (or escaped opening brace and backslash) directly before
    a brace that would pair up with its last one. *)
Definition well_separated (s : str) : bool :=
  negb (contains s (py "{{`}}")) && negb (contains s (py "{{}`}}")) &&
  negb (contains s (py "\{\{{")) && negb (contains s (py "\{\}}")) &&
  negb (contains s (py "\}\}}")).

(** A variable of [templating.list] that the loop leaves alone: a dict
    with a [name] other than [cluster]. *)
Definition plain_variable (v : value) : Prop :=
  exists (d : list (str * value)) (name : value),
    v = VDict d /\ dict_get d (py "name") = Some name /\
    eq_str name (py "cluster") = false.

(** The dashboard [d], whose [templating] is [t] and whose variables are
    [before], [variable] and [after], with [v] as the [hide] of
    [variable]. *)
Definition with_hide (d t : list (str * value)) (before : list value)
    (variable : list (str * value)) (after : list value) (v : value) : value :=
  VDict (dict_set d (py "templating")
           (VDict (dict_set t (py "list")
                     (VList (before ++ VDict (dict_set variable (py "hide") v) :: after))))).

(** ** Example inputs *)

(** A dashboard with one [cluster] variable, as [json.dumps(_, indent=4)]
    writes it. *)
Definition dashboard_with_cluster : str := pyq "{
    ~templating~: {
        ~list~: [
            {
                ~name~: ~cluster~,
                ~hide~: 0
            }
        ]
    },
    ~tags~: []
}".

(** A dashboard without the [templating] key. *)
Definition dashboard_without_templating : str := pyq "{
    ~title~: ~etcd~
}".

Definition etcd_url : str := py "https://etcd.io/docs/v3.4/op-guide/grafana.json".
Definition dashboards_dir : str := py "../templates/grafana/dashboards".

(** [dashboard_with_cluster] after the patch has dumped it is
    [dashboard_before_hide], the quoted sentinel as the value of
    [hide], and [dashboard_after_hide]. *)
Definition dashboard_before_hide : str := pyq "{
    ~templating~: {
        ~list~: [
            {
                ~name~: ~cluster~,
                ".

Definition dashboard_after_hide : str := pyq "
            }
        ]
    },
    ~tags~: []
}".

(** A dashboard with a [cluster] variable and a variable without a
    name. *)
Definition dashboard_with_unnamed_variable : str := pyq "{
    ~templating~: {
        ~list~: [
            {
                ~name~: ~cluster~,
                ~hide~: 0
            },
            {
                ~type~: ~query~
            }
        ]
    }
}".

(** A dashboard with two variables named [cluster]. *)
Definition dashboard_with_two_clusters : str := pyq "{
    ~templating~: {
        ~list~: [
            {
                ~name~: ~cluster~,
                ~hide~: 0
            },
            {
                ~name~: ~cluster~,
                ~hide~: 0
            }
        ]
    }
}".

(** The third source of [charts]. *)
Definition victoriametrics_chart : chart :=
  {| source := py "https://raw.githubusercontent.com/VictoriaMetrics/VictoriaMetrics/master/dashboards/victoriametrics.json";
     destination := dashboards_dir;
     type := py "json" |}.

(** The second source of [charts], the one the script calls nested. *)
Definition etcd_chart : chart :=
  {| source := etcd_url; destination := dashboards_dir; type := py "json" |}.

(** The first source of [charts]. *)
Definition kube_prometheus_chart : chart :=
  {| source := py "https://raw.githubusercontent.com/prometheus-operator/kube-prometheus/master/manifests/grafana-dashboardDefinitions.yaml";
     destination := dashboards_dir;
     type := py "yaml" |}.

(** A JSON object with [annotations] whose [templating] is a number. *)
Definition flat_body_with_bad_templating : str :=
  pyq "{~annotations~: {~list~: [1]}, ~templating~: 5}".

(** A nested JSON body with a key of the skip list. *)
Definition nested_body_with_skipped_key : str :=
  pyq "{~prometheus.json~: {~title~: ~Prometheus~}}".

(** A YAML bundle (in JSON syntax) with the same key in its data. *)
Definition yaml_body_with_skipped_key : str :=
  pyq "{~items~: [{~data~: {~prometheus.json~: ~{}~}}]}".

(** A dashboard indented by two spaces, with an empty literal inside a
    string. *)
Definition dashboard_with_inner_literal : str := pyq "{
  ~templating~: {
    ~list~: []
  },
  ~expr~: ~up{}~
}".

(** A dashboard without a [cluster] variable, as [json.dumps] writes
    it. *)
Definition dashboard_without_cluster : str := pyq "{
    ~templating~: {
        ~list~: [
            {
                ~name~: ~node~,
                ~hide~: 0
            }
        ]
    },
    ~tags~: []
}".

(** A dashboard with three variables, the second one named [cluster]. *)
Definition variable_datasource : value :=
  VDict [(py "name", VStr (py "datasource")); (py "current", VDict [])].

Definition variable_cluster : list (str * value) :=
  [(py "name", VStr (py "cluster")); (py "hide", VInt 0); (py "options", VList [])].

Definition variable_node : value :=
  VDict [(py "hide", VInt 2); (py "name", VStr (py "node"))].

Definition templating_of_three : list (str * value) :=
  [(py "list", VList [variable_datasource; VDict variable_cluster; variable_node])].

Definition dashboard_of_three : list (str * value) :=
  [(py "title", VStr (py "etcd")); (py "templating", VDict templating_of_three);
   (py "tags", VList [])].

(** ** More vocabulary *)

(** The line holds an empty list or an empty object. *)
Definition has_literal (line : str) : bool :=
  contains line (py "[]") || contains line (py "{}").

Definition is_dict (v : value) : bool :=
  match v with
  | VDict _ => true
  | _ => false
  end.

(** The two lines printed for a source that does not answer 200. *)
Definition skip_lines (get : str -> response) (c : chart) : list str :=
  [py "Generating dashboards from " ++ source c;
   py "Skipping the file, response code " ++ str_of_Z (status_code (get (source c))) ++
   py " not equals 200"].




Section Emits.
Context `{Library}.


End Emits.



(** A line of white space only; a line without a line break; and the
    lines, each with its newline, behind [prefix] when they are not
    blank. *)
Definition blank (line : str) : bool := forallb isspace line.

Definition one_line (line : str) : bool := forallb (fun c => negb (is_linebreak c)) line.

Definition indented (prefix : str) (lines : list str) : str :=
  concat (List.map (fun line => (if blank line then line else prefix ++ line) ++ [nl]) lines).

(** ** More example inputs *)

(** A dashboard on one line. *)
Definition compact_dashboard : str :=
  pyq "{~templating~: {~list~: [{~name~: ~node~}]}, ~title~: ~etcd~}".

(** A dashboard on one line whose dump has an empty list on its third
    line. *)
Definition compact_dashboard_with_literal : str := pyq "{~templating~: {~list~: []}}".

(** A dashboard on one line whose [cluster] variable has no [hide]. *)
Definition compact_dashboard_with_cluster : str :=
  pyq "{~templating~: {~list~: [{~name~: ~cluster~}]}}".

(** A JSON list, and a dashboard with a string among its variables. *)
Definition dashboard_list : str := pyq "[~etcd~]".

Definition dashboard_with_string_variable : str :=
  pyq "{~templating~: {~list~: [{~name~: ~node~}, ~cluster~]}}".

(** The two parts of a title that holds the sentinel between two
    spaces. *)
Definition title_before_sentinel : str := pyq "{~title~: ~see".
Definition title_after_sentinel : str := pyq "flag~}".




(** * Properties *)

(** ** Strings: basic facts *)

Lemma str_eqb_eq (a b : str) : str_eqb a b = true <-> a = b.
Proof.
  revert b. induction a as [|x a IH]; intros [|y b]; simpl; split; try congruence.
  - intros Hxy. apply andb_true_iff in Hxy as [Hx Ha].
    apply N.eqb_eq in Hx. apply IH in Ha. congruence.
  - intros [= -> ->]. rewrite N.eqb_refl. simpl. now apply IH.
Qed.

Lemma str_eqb_refl (a : str) : str_eqb a a = true.
Proof. now apply str_eqb_eq. Qed.

Lemma str_eqb_neq (a b : str) : str_eqb a b = false <-> a <> b.
Proof.
  split.
  - intros Hf Heq. apply str_eqb_eq in Heq. congruence.
  - intros Hne. destruct (str_eqb a b) eqn:E; [|reflexivity].
    apply str_eqb_eq in E. contradiction.
Qed.

Lemma startswith_app (p s : str) : startswith (p ++ s) p = true.
Proof. induction p as [|c p IH]; simpl; [reflexivity|]. now rewrite N.eqb_refl. Qed.

Lemma startswith_inv (s p : str) :
  startswith s p = true -> exists r, s = p ++ r.
Proof.
  revert s. induction p as [|c p IH]; intros s Hs; simpl in *.
  - now exists s.
  - destruct s as [|d s]; [discriminate|].
    apply andb_true_iff in Hs as [Hc Hs]. apply N.eqb_eq in Hc. subst d.
    destruct (IH _ Hs) as [r ->]. now exists r.
Qed.

(** ** The header *)

Lemma format_header (name url condition : str) :
  format header [(py "name", name); (py "url", url); (py "condition", condition)] =
  Return (header_top name url ++ guard condition ++ header_rest name).
Proof.
  unfold header_top, guard, header_rest. rewrite <- !app_assoc.
  vm_compute. reflexivity.
Qed.

Section Properties.
Context `{Library}.

Lemma group_lines_eq (resource_name content url : str) :
  group_lines resource_name content url =
  (patched <- patch_json_for_multicluster_configuration content ;;
   Return (header_top resource_name url ++ guard (condition_for resource_name) ++
           header_rest resource_name ++
           yaml_str_repr (resource_name ++ py ".json") patched ++ py "{{- end }}")).
Proof.
  unfold group_lines. rewrite format_header. cbn [bind].
  destruct (patch_json_for_multicluster_configuration content); cbn [bind]; [|reflexivity].
  now rewrite <- !app_assoc.
Qed.

Lemma write_group_to_file_eq (resource_name content url destination : str) (w : world) :
  write_group_to_file resource_name content url destination w =
  match group_lines resource_name content url with
  | Return lines =>
      (Return tt,
       {| files := <[output_path destination resource_name := lines]> (files w);
          dirs := {[destination]} ∪ dirs w;
          stdout := stdout w ++ [py "Generated " ++ output_path destination resource_name] |})
  | Raise e => (Raise e, w)
  end.
Proof.
  unfold write_group_to_file, io_bind, lift, makedirs, write_file, print, output_path.
  destruct (group_lines resource_name content url); reflexivity.
Qed.

End Properties.

(** ** Runs that do not read the world *)

Lemma write_all_app (ws ws' : list (str * str)) (m : gmap str str) :
  write_all (ws ++ ws') m = write_all ws' (write_all ws m).
Proof. unfold write_all. apply fold_left_app. Qed.

Lemma apply_effect_compose (e e' : effect) (w : world) :
  apply_effect e' (apply_effect e w) =
  apply_effect {| writes := writes e ++ writes e';
                  made := made e' ∪ made e;
                  printed := printed e ++ printed e' |} w.
Proof.
  unfold apply_effect. simpl. f_equal.
  - now rewrite write_all_app.
  - now rewrite (assoc_L (∪)).
  - now rewrite <- app_assoc.
Qed.

Lemma apply_effect_nothing (w : world) :
  apply_effect {| writes := []; made := ∅; printed := [] |} w = w.
Proof.
  destruct w as [f d s]. unfold apply_effect. simpl. f_equal.
  - apply (left_id_L ∅ (∪)).
  - apply app_nil_r.
Qed.

Lemma uniform_return {A : Type} (a : A) : uniform (io_return a).
Proof.
  exists (Return a), {| writes := []; made := ∅; printed := [] |}.
  intros w. unfold io_return. now rewrite apply_effect_nothing.
Qed.

Lemma uniform_lift {A : Type} (r : result A) : uniform (lift r).
Proof.
  exists r, {| writes := []; made := ∅; printed := [] |}.
  intros w. unfold lift. now rewrite apply_effect_nothing.
Qed.

Lemma uniform_print (line : str) : uniform (print line).
Proof.
  exists (Return tt), {| writes := []; made := ∅; printed := [line] |}.
  intros [f d s]. unfold print, apply_effect. simpl. do 2 f_equal.
  symmetry. apply (left_id_L ∅ (∪)).
Qed.

Lemma uniform_makedirs (d : str) : uniform (makedirs d).
Proof.
  exists (Return tt), {| writes := []; made := {[d]}; printed := [] |}.
  intros [f ds s]. unfold makedirs, apply_effect. simpl. do 2 f_equal.
  symmetry. apply app_nil_r.
Qed.

Lemma uniform_write_file (name lines : str) : uniform (write_file name lines).
Proof.
  exists (Return tt), {| writes := [(name, lines)]; made := ∅; printed := [] |}.
  intros [f ds s]. unfold write_file, apply_effect. simpl. do 2 f_equal.
  - symmetry. apply (left_id_L ∅ (∪)).
  - symmetry. apply app_nil_r.
Qed.

Lemma uniform_bind {A B : Type} (m : io A) (k : A -> io B) :
  uniform m -> (forall a, uniform (k a)) -> uniform (io_bind m k).
Proof.
  intros (r & e & Hm) Hk. destruct r as [a|x].
  - destruct (Hk a) as (r' & e' & Hka).
    exists r', {| writes := writes e ++ writes e';
                  made := made e' ∪ made e;
                  printed := printed e ++ printed e' |}.
    intros w. unfold io_bind. rewrite Hm, Hka. now rewrite apply_effect_compose.
  - exists (Raise x), e. intros w. unfold io_bind. now rewrite Hm.
Qed.

Lemma uniform_for_each {A : Type} (l : list A) (body : A -> io unit) :
  (forall a, uniform (body a)) -> uniform (for_each l body).
Proof.
  intros Hbody. induction l as [|a l IH]; simpl.
  - apply uniform_return.
  - apply uniform_bind; [apply Hbody | intros _; apply IH].
Qed.

(** The last content written to [k] by [ws], if any. *)
Lemma lookup_write_all (ws : list (str * str)) (m : gmap str str) (k : str) :
  write_all ws m !! k =
  match write_all ws ∅ !! k with
  | Some v => Some v
  | None => m !! k
  end.
Proof.
  revert m. induction ws as [|[k' v'] ws IH] using rev_ind; intros m.
  - unfold write_all. simpl. now rewrite lookup_empty.
  - rewrite !write_all_app. unfold write_all at 1 3. simpl.
    destruct (decide (k' = k)) as [->|Hne].
    + now rewrite !lookup_insert_eq.
    + rewrite !lookup_insert_ne by assumption. apply IH.
Qed.

Lemma write_all_twice (ws : list (str * str)) (m : gmap str str) :
  write_all ws (write_all ws m) = write_all ws m.
Proof.
  apply map_eq. intros k.
  rewrite (lookup_write_all ws (write_all ws m)), (lookup_write_all ws m).
  now destruct (write_all ws ∅ !! k).
Qed.

Section Runs.
Context `{Library}.

Lemma uniform_write_group_to_file (resource_name content url destination : str) :
  uniform (write_group_to_file resource_name content url destination).
Proof.
  unfold write_group_to_file.
  apply uniform_bind; [apply uniform_lift|]. intros lines.
  apply uniform_bind; [apply uniform_makedirs|]. intros _.
  apply uniform_bind; [apply uniform_write_file|]. intros _.
  apply uniform_print.
Qed.

Lemma uniform_process_yaml (c : chart) (raw_text : str) : uniform (process_yaml c raw_text).
Proof.
  unfold process_yaml.
  apply uniform_bind; [apply uniform_lift|]. intros yaml_text.
  apply uniform_bind; [apply uniform_lift|]. intros groups.
  apply uniform_bind; [apply uniform_lift|]. intros groups'.
  apply uniform_for_each. intros group.
  apply uniform_bind; [apply uniform_lift|]. intros data.
  apply uniform_bind; [apply uniform_lift|]. intros items.
  apply uniform_for_each. intros [resource content]. cbn [process_yaml_item].
  destruct (existsb (str_eqb resource) skip_list); [apply uniform_return|].
  destruct content; try apply uniform_lift. apply uniform_write_group_to_file.
Qed.

Lemma uniform_process_json (c : chart) (raw_text : str) : uniform (process_json c raw_text).
Proof.
  unfold process_json.
  apply uniform_bind; [apply uniform_lift|]. intros json_text.
  apply uniform_bind; [apply uniform_lift|]. intros annotations.
  destruct (truthy annotations).
  - apply uniform_write_group_to_file.
  - apply uniform_bind; [apply uniform_lift|]. intros items.
    apply uniform_for_each. intros [resource content]. cbn [process_json_item].
    apply uniform_write_group_to_file.
Qed.

Lemma uniform_process_chart (get : str -> response) (c : chart) :
  uniform (process_chart get c).
Proof.
  unfold process_chart.
  apply uniform_bind; [apply uniform_print|]. intros _.
  destruct (negb _); [apply uniform_print|].
  destruct (str_eqb (type c) (py "yaml")); [apply uniform_process_yaml|].
  destruct (str_eqb (type c) (py "json")); [apply uniform_process_json|].
  apply uniform_return.
Qed.

Lemma uniform_main (get : str -> response) : uniform (main get).
Proof.
  unfold main, main_loop.
  apply uniform_bind; [|intros _; apply uniform_print].
  apply uniform_for_each. intros c. apply uniform_process_chart.
Qed.

(** C9. For fixed upstream responses there is a list of writes, fixed by
    the responses, such that after a run every path holds the text last
    written to it, or what it held before when nothing is written to it;
    so a second run leaves every file as the first run left it, and ends
    the same way. *)
Theorem main_twice_same_files (get : str -> response) :
  exists ws : list (str * str),
    (forall (w : world) (path : str),
       files (main get w).2 !! path =
       match write_all ws ∅ !! path with
       | Some lines => Some lines
       | None => files w !! path
       end) /\
    (forall w, files (main get (main get w).2).2 = files (main get w).2) /\
    (forall w, (main get (main get w).2).1 = (main get w).1).
Proof.
  destruct (uniform_main get) as (r & e & Hmain).
  exists (writes e). repeat split; intros w; rewrite !Hmain; simpl.
  - intros path. apply lookup_write_all.
  - apply write_all_twice.
  - reflexivity.
Qed.

(** C6. A source whose response status is not 200 writes no file and
    makes no directory; the skip message is printed after the progress
    line, and the loop goes on with the next source. *)
Theorem non_200_source_is_skipped (get : str -> response) (c : chart) (rest : list chart)
    (w : world) :
  status_code (get (source c)) <> 200%Z ->
  process_chart get c w = (Return tt, skipped w c (status_code (get (source c)))) /\
  main_loop get (c :: rest) w =
    main_loop get rest (skipped w c (status_code (get (source c)))).
Proof.
  intros Hstatus.
  assert (Hc : process_chart get c w =
               (Return tt, skipped w c (status_code (get (source c))))).
  { unfold process_chart, io_bind, print, skipped.
    apply Z.eqb_neq in Hstatus. rewrite Hstatus. cbn [negb files dirs stdout].
    now rewrite <- app_assoc. }
  split; [exact Hc|].
  unfold main_loop. cbn [for_each]. unfold io_bind at 1. now rewrite Hc.
Qed.

End Runs.

(** A source answering 503: nothing is written and the loop goes on. *)
Lemma non_200_source_is_skipped_witness :
  let get := always 503 (py "Service Unavailable") in
  let c := {| source := py "https://etcd.io/docs/v3.4/op-guide/grafana.json";
              destination := py "../templates/grafana/dashboards";
              type := py "json" |} in
  (503 <> 200)%Z /\
  process_chart get c empty_world = (Return tt, skipped empty_world c 503) /\
  main_loop get (c :: []) empty_world = main_loop get [] (skipped empty_world c 503).
Proof.
  intros get c. split; [lia|].
  apply (non_200_source_is_skipped get c [] empty_world). simpl. lia.
Defined.

(** ** The multicluster patch: failures *)

Section PatchFailures.
Context `{Library}.

Lemma patch_body_malformed (content : str) :
  json_loads content = Raise ValueError -> patch_body content = Raise ValueError.
Proof. intros Hloads. unfold patch_body, reconstructed. now rewrite Hloads. Qed.

Lemma patch_body_no_templating (content : str) (d : list (str * value)) :
  json_loads content = Return (VDict d) ->
  dict_get d (py "templating") = None ->
  patch_body content = Raise KeyError.
Proof.
  intros Hloads Hget. unfold patch_body, reconstructed, patch_struct.
  rewrite Hloads. cbn [bind getitem]. now rewrite Hget.
Qed.

Lemma patch_body_no_list (content : str) (d t : list (str * value)) :
  json_loads content = Return (VDict d) ->
  dict_get d (py "templating") = Some (VDict t) ->
  dict_get t (py "list") = None ->
  patch_body content = Raise KeyError.
Proof.
  intros Hloads Hget Hlist. unfold patch_body, reconstructed, patch_struct.
  rewrite Hloads. cbn [bind getitem]. rewrite Hget. cbn [bind getitem]. now rewrite Hlist.
Qed.

(** C4. When the body of the [try] block raises [ValueError] (a JSON
    parse error) or [KeyError] (a missing key), the patch returns its
    input as it was, and [write_group_to_file] goes on to write the file
    with that content. *)
Theorem patch_error_keeps_content (content : str) (e : exn) :
  patch_body content = Raise e ->
  e = ValueError \/ e = KeyError ->
  patch_json_for_multicluster_configuration content = Return content /\
  forall (resource_name url destination : str) (w : world),
    write_group_to_file resource_name content url destination w =
    (Return tt,
     {| files := <[output_path destination resource_name :=
                     header_top resource_name url ++
                     guard (condition_for resource_name) ++
                     header_rest resource_name ++
                     yaml_str_repr (resource_name ++ py ".json") content ++
                     py "{{- end }}"]> (files w);
        dirs := {[destination]} ∪ dirs w;
        stdout := stdout w ++ [py "Generated " ++ output_path destination resource_name] |}).
Proof.
  intros Hbody He.
  assert (Hpatch : patch_json_for_multicluster_configuration content = Return content).
  { unfold patch_json_for_multicluster_configuration. rewrite Hbody.
    now destruct He as [-> | ->]. }
  split; [exact Hpatch|].
  intros resource_name url destination w.
  rewrite write_group_to_file_eq, group_lines_eq, Hpatch. reflexivity.
Qed.

Lemma written_file_starts_with_header (resource_name content url destination : str)
    (w w' : world) :
  write_group_to_file resource_name content url destination w = (Return tt, w') ->
  exists rest : str,
    files w' !! output_path destination resource_name =
    Some (header_top resource_name url ++ guard (condition_for resource_name) ++ rest).
Proof.
  intros Hwrite. rewrite write_group_to_file_eq, group_lines_eq in Hwrite.
  destruct (patch_json_for_multicluster_configuration content) as [patched|];
    cbn [bind] in Hwrite; [|discriminate].
  injection Hwrite as <-. cbn [files].
  eexists. rewrite lookup_insert_eq. reflexivity.
Qed.

(** C8. The file written for [etcd] starts with the provenance comment
    and a guard that ends with the clause [.Values.kubeEtcd.enabled];
    for a name that the condition map lacks, the interpolated condition
    is empty and the guard has the two grafana conditions only. *)
Theorem guard_of_generated_file :
  (forall (content url destination : str) (w w' : world),
     write_group_to_file (py "etcd") content url destination w = (Return tt, w') ->
     exists rest : str,
       files w' !! output_path destination (py "etcd") =
       Some (header_top (py "etcd") url ++
             py "{{- if and .Values.grafana.enabled .Values.grafana.defaultDashboardsEnabled .Values.kubeEtcd.enabled }}" ++
             rest)) /\
  (forall (resource_name content url destination : str) (w w' : world),
     dict_get condition_map resource_name = None ->
     write_group_to_file resource_name content url destination w = (Return tt, w') ->
     condition_for resource_name = [] /\
     exists rest : str,
       files w' !! output_path destination resource_name =
       Some (header_top resource_name url ++
             py "{{- if and .Values.grafana.enabled .Values.grafana.defaultDashboardsEnabled }}" ++
             rest)).
Proof.
  split.
  - intros content url destination w w' Hwrite.
    exact (written_file_starts_with_header _ _ _ _ _ _ Hwrite).
  - intros resource_name content url destination w w' Hnone Hwrite.
    assert (Hcondition : condition_for resource_name = []).
    { unfold condition_for. now rewrite Hnone. }
    split; [exact Hcondition|].
    destruct (written_file_starts_with_header _ _ _ _ _ _ Hwrite) as [rest Hrest].
    exists rest. now rewrite Hcondition in Hrest.
Qed.

End PatchFailures.

(** A dashboard without [templating]: [KeyError], so the content is
    written as it came. *)
Lemma patch_error_keeps_content_witness :
  let content := dashboard_without_templating in
  patch_body content = Raise KeyError /\
  (KeyError = ValueError \/ KeyError = KeyError) /\
  patch_json_for_multicluster_configuration content = Return content /\
  forall (resource_name url destination : str) (w : world),
    write_group_to_file resource_name content url destination w =
    (Return tt,
     {| files := <[output_path destination resource_name :=
                     header_top resource_name url ++
                     guard (condition_for resource_name) ++
                     header_rest resource_name ++
                     yaml_str_repr (resource_name ++ py ".json") content ++
                     py "{{- end }}"]> (files w);
        dirs := {[destination]} ∪ dirs w;
        stdout := stdout w ++ [py "Generated " ++ output_path destination resource_name] |}).
Proof.
  intros content.
  assert (Hbody : patch_body content = Raise KeyError) by (vm_compute; reflexivity).
  split; [exact Hbody|]. split; [right; reflexivity|].
  exact (patch_error_keeps_content content KeyError Hbody (or_intror eq_refl)).
Defined.

(** The files written for [etcd], which has a condition, and for
    [vmagent], which has none. *)
Lemma guard_of_generated_file_witness :
  let etcd := (write_group_to_file (py "etcd") dashboard_with_cluster etcd_url
                 dashboards_dir empty_world).2 in
  let vmagent := (write_group_to_file (py "vmagent") dashboard_with_cluster etcd_url
                    dashboards_dir empty_world).2 in
  (exists rest : str,
     files etcd !! output_path dashboards_dir (py "etcd") =
     Some (header_top (py "etcd") etcd_url ++
           py "{{- if and .Values.grafana.enabled .Values.grafana.defaultDashboardsEnabled .Values.kubeEtcd.enabled }}" ++
           rest)) /\
  dict_get condition_map (py "vmagent") = None /\
  condition_for (py "vmagent") = [] /\
  (exists rest : str,
     files vmagent !! output_path dashboards_dir (py "vmagent") =
     Some (header_top (py "vmagent") etcd_url ++
           py "{{- if and .Values.grafana.enabled .Values.grafana.defaultDashboardsEnabled }}" ++
           rest)).
Proof.
  intros etcd vmagent.
  assert (Hetcd : write_group_to_file (py "etcd") dashboard_with_cluster etcd_url
                    dashboards_dir empty_world = (Return tt, etcd)).
  { subst etcd. rewrite (surjective_pairing (write_group_to_file _ _ _ _ _)) at 1.
    f_equal; vm_compute; reflexivity. }
  assert (Hvmagent : write_group_to_file (py "vmagent") dashboard_with_cluster etcd_url
                       dashboards_dir empty_world = (Return tt, vmagent)).
  { subst vmagent. rewrite (surjective_pairing (write_group_to_file _ _ _ _ _)) at 1.
    f_equal; vm_compute; reflexivity. }
  assert (Hnone : dict_get condition_map (py "vmagent") = None) by reflexivity.
  destruct guard_of_generated_file as [Hwith Hwithout].
  split; [exact (Hwith _ _ _ _ _ Hetcd)|].
  split; [exact Hnone|].
  exact (Hwithout _ _ _ _ _ _ Hnone Hvmagent).
Defined.

(** ** Strings: occurrences *)

Lemma startswith_extend (x r sub : str) :
  startswith x sub = true -> startswith (x ++ r) sub = true.
Proof.
  intros Hx. destruct (startswith_inv _ _ Hx) as [t ->].
  rewrite <- app_assoc. apply startswith_app.
Qed.

(** An occurrence cannot run over a character that [sub] does not have. *)
Lemma startswith_sep (x : str) (c : N) (r sub : str) :
  avoids sub c = true ->
  startswith (x ++ c :: r) sub = true -> startswith x sub = true.
Proof.
  revert x. induction sub as [|a sub IH]; intros x Hc Hs; [reflexivity|].
  simpl in Hc. apply andb_true_iff in Hc as [Hac Hc].
  destruct x as [|d x]; simpl in *.
  - apply andb_true_iff in Hs as [Hs _]. rewrite Hs in Hac. discriminate.
  - apply andb_true_iff in Hs as [Hd Hs]. rewrite Hd. simpl. now apply IH.
Qed.

Lemma startswith_sep_eq (x : str) (c : N) (r sub : str) :
  avoids sub c = true ->
  startswith (x ++ c :: r) sub = startswith x sub.
Proof.
  intros Hc. destruct (startswith x sub) eqn:Hx.
  - now apply startswith_extend.
  - destruct (startswith (x ++ c :: r) sub) eqn:Hs; [|reflexivity].
    apply startswith_sep in Hs; [congruence | assumption].
Qed.

Lemma contains_nil (sub : str) : sub <> [] -> contains [] sub = false.
Proof. destruct sub; [congruence | reflexivity]. Qed.

Lemma contains_app_intro (x p y : str) : contains (x ++ p ++ y) p = true.
Proof.
  induction x as [|d x IH]; simpl.
  - destruct (p ++ y) eqn:E; simpl.
    + destruct p; [reflexivity | discriminate].
    + rewrite <- E, startswith_app. reflexivity.
  - rewrite IH. apply orb_true_r.
Qed.

(** Around a character that [sub] does not have, [sub] occurs on the
    left or on the right. *)
Lemma contains_sep (x : str) (c : N) (y sub : str) :
  sub <> [] -> avoids sub c = true ->
  contains (x ++ c :: y) sub = contains x sub || contains y sub.
Proof.
  intros Hsub Hc. induction x as [|d x IH].
  - rewrite contains_nil by assumption. simpl.
    destruct sub as [|a sub]; [congruence|]. simpl in *.
    apply andb_true_iff in Hc as [Hac _]. apply negb_true_iff in Hac.
    now rewrite Hac.
  - change ((d :: x) ++ c :: y) with (d :: (x ++ c :: y)).
    cbn [contains]. rewrite IH.
    change (d :: x ++ c :: y) with ((d :: x) ++ c :: y).
    rewrite startswith_sep_eq by assumption. now rewrite orb_assoc.
Qed.

Lemma find_from_found (sub s : str) (i : Z) :
  startswith s sub = true -> find_from sub i s = i.
Proof. intros Hs. destruct s; simpl; now rewrite Hs. Qed.

(** After a part without [sub] and a character that [sub] does not have,
    the first occurrence is the one that follows. *)
Lemma find_from_after_sep (a : str) (c : N) (sub b : str) (i : Z) :
  avoids sub c = true -> contains a sub = false ->
  find_from sub i (a ++ c :: sub ++ b) = (i + Z.of_nat (length a) + 1)%Z.
Proof.
  intros Hc. revert i. induction a as [|d a IH]; intros i Ha.
  - assert (Hsub : sub <> []) by (intros ->; discriminate).
    cbn [app length find_from].
    replace (startswith (c :: sub ++ b) sub) with false.
    + rewrite find_from_found by apply startswith_app. simpl. lia.
    + symmetry. change (c :: sub ++ b) with ([] ++ c :: sub ++ b).
      rewrite startswith_sep_eq by assumption.
      destruct sub; [congruence | reflexivity].
  - cbn [contains] in Ha. apply orb_false_iff in Ha as [Hd Ha].
    change ((d :: a) ++ c :: sub ++ b) with (d :: (a ++ c :: sub ++ b)).
    cbn [find_from].
    change (d :: (a ++ c :: sub ++ b)) with ((d :: a) ++ c :: sub ++ b).
    rewrite startswith_sep_eq by assumption. rewrite Hd.
    rewrite IH by assumption. cbn [length]. lia.
Qed.

Lemma find_after_sep (a : str) (c : N) (sub b : str) :
  avoids sub c = true -> contains a sub = false ->
  find (a ++ c :: sub ++ b) sub = (Z.of_nat (length a) + 1)%Z.
Proof. intros Hc Ha. unfold find. now rewrite find_from_after_sep. Qed.

Lemma find_from_none (sub s : str) (i : Z) :
  contains s sub = false -> find_from sub i s = (-1)%Z.
Proof.
  revert i. induction s as [|d s IH]; intros i Hs; cbn [contains find_from] in *.
  - apply orb_false_iff in Hs as [-> _]. reflexivity.
  - apply orb_false_iff in Hs as [-> Hs]. now apply IH.
Qed.

(** ** The multicluster patch: the sentinel *)

(** The first sentinel goes with the character before it and the
    character after it. *)
Lemma replace_multicluster_first (a : str) (q1 q2 : N) (s : str) :
  avoids sentinel q1 = true -> contains a sentinel = false ->
  replace_multicluster (a ++ q1 :: sentinel ++ q2 :: s) = a ++ multicluster_expr ++ s.
Proof.
  intros Hq Ha. unfold replace_multicluster.
  rewrite find_after_sep by assumption.
  replace (_ =? -1)%Z with false by (symmetry; apply Z.eqb_neq; lia).
  f_equal; [|f_equal].
  - unfold slice_to.
    replace (_ <? 0)%Z with false by (symmetry; apply Z.ltb_ge; lia).
    replace (Z.to_nat _) with (length a) by lia.
    now rewrite take_app_length.
  - unfold slice_from.
    replace (_ <? 0)%Z with false by (symmetry; apply Z.ltb_ge; lia).
    replace (Z.to_nat _) with (length a + 16)%nat by lia.
    rewrite <- drop_drop, drop_app_length. reflexivity.
Qed.

Lemma replace_multicluster_absent (content : str) :
  contains content sentinel = false -> replace_multicluster content = content.
Proof.
  intros Hc. unfold replace_multicluster, find. now rewrite find_from_none.
Qed.

(** The Helm expression has no sentinel in it, nor has what stands
    around it. *)
Lemma no_sentinel_after_replace (a s : str) :
  contains a sentinel = false -> contains s sentinel = false ->
  contains (a ++ multicluster_expr ++ s) sentinel = false.
Proof.
  intros Ha Hs.
  assert (Hexpr : multicluster_expr ++ s =
                  py "\{\{ if .Values.grafana.sidecar.dashboards.multicluster \}\}0\{\{ else \}\}2\{\{ end \}\" ++
                  125 :: s).
  { vm_compute. reflexivity. }
  rewrite Hexpr.
  change (py "\{\{ if .Values.grafana.sidecar.dashboards.multicluster \}\}0\{\{ else \}\}2\{\{ end \}\")
    with (92 :: py "{\{ if .Values.grafana.sidecar.dashboards.multicluster \}\}0\{\{ else \}\}2\{\{ end \}\").
  cbn [app]. rewrite contains_sep; [|discriminate|reflexivity].
  rewrite Ha. cbn [orb]. rewrite contains_sep; [|discriminate|reflexivity].
  rewrite Hs. vm_compute. reflexivity.
Qed.

Lemma quoted_sentinel_parts (p s : str) :
  p ++ pyq "~hide~: ~:multicluster:~" ++ s =
  (p ++ pyq "~hide~: ") ++ 34 :: sentinel ++ 34 :: s.
Proof. rewrite <- app_assoc. f_equal. Qed.

Lemma no_sentinel_before_hide (p : str) :
  contains p sentinel = false -> contains (p ++ pyq "~hide~: ") sentinel = false.
Proof.
  intros Hp. change (pyq "~hide~: ") with (34 :: pyq "hide~: ").
  rewrite contains_sep; [|discriminate|reflexivity].
  rewrite Hp. reflexivity.
Qed.

(** The quoted sentinel that comes first in the text, as the value of
    [hide]. *)
Lemma replace_quoted_sentinel (p s : str) :
  contains p sentinel = false ->
  replace_multicluster (p ++ pyq "~hide~: ~:multicluster:~" ++ s) =
    p ++ pyq "~hide~: " ++ multicluster_expr ++ s.
Proof.
  intros Hp. rewrite quoted_sentinel_parts.
  rewrite replace_multicluster_first;
    [ now rewrite <- app_assoc | reflexivity | now apply no_sentinel_before_hide ].
Qed.

(** C10. The quoted sentinel that comes first in the text is replaced
    together with its two quotes: what is left after [hide] is the bare
    Helm expression, whose branches are the numbers 0 and 2, and which
    the emit step writes with plain braces. *)
Theorem sentinel_replaced_with_its_quotes (p s : str) :
  contains p sentinel = false ->
  replace_multicluster (p ++ pyq "~hide~: ~:multicluster:~" ++ s) =
    p ++ pyq "~hide~: " ++ multicluster_expr ++ s /\
  unescape (escape multicluster_expr) =
    py "{{ if .Values.grafana.sidecar.dashboards.multicluster }}0{{ else }}2{{ end }}".
Proof.
  intros Hp. split; [now apply replace_quoted_sentinel | vm_compute; reflexivity].
Qed.

Lemma sentinel_replaced_with_its_quotes_witness :
  contains dashboard_before_hide sentinel = false /\
  replace_multicluster
    (dashboard_before_hide ++ pyq "~hide~: ~:multicluster:~" ++ dashboard_after_hide) =
    dashboard_before_hide ++ pyq "~hide~: " ++ multicluster_expr ++ dashboard_after_hide /\
  unescape (escape multicluster_expr) =
    py "{{ if .Values.grafana.sidecar.dashboards.multicluster }}0{{ else }}2{{ end }}".
Proof.
  assert (Hp : contains dashboard_before_hide sentinel = false) by (vm_compute; reflexivity).
  split; [exact Hp|].
  exact (sentinel_replaced_with_its_quotes dashboard_before_hide dashboard_after_hide Hp).
Defined.

(** ** The multicluster patch: the structure *)

(** X2. When the loop over the variables completes, each variable was a
    dict with a [name]; the ones named [cluster] come out with the
    sentinel as their [hide], the others as they were. *)
Lemma patch_variables_spec (variables overwrite_list : list value) :
  patch_variables variables = Return overwrite_list ->
  Forall2 patched_variable variables overwrite_list.
Proof.
  revert overwrite_list. induction variables as [|variable rest IH]; intros out Hout.
  - injection Hout as <-. constructor.
  - cbn [patch_variables] in Hout.
    destruct variable as [| | | | |l|d]; try discriminate.
    cbn [getitem] in Hout.
    destruct (dict_get d (py "name")) as [name|] eqn:Hname; [|discriminate].
    cbn [bind] in Hout.
    destruct (eq_str name (py "cluster")) eqn:Hcluster; cbn [setitem bind] in Hout;
      destruct (patch_variables rest) as [rest'|] eqn:Hrest; try discriminate;
      cbn [bind] in Hout; injection Hout as <-; constructor; auto.
    + now apply patched_cluster with name.
    + now apply patched_other with name.
Qed.

Lemma dict_get_set_eq {V : Type} (d : list (str * V)) (k : str) (v : V) :
  dict_get (dict_set d k v) k = Some v.
Proof.
  induction d as [|[k' v'] d IH]; simpl.
  - now rewrite str_eqb_refl.
  - destruct (str_eqb k' k) eqn:E; simpl; rewrite E; [reflexivity | exact IH].
Qed.

(** After the loop, every variable named [cluster] has the sentinel as
    its [hide]. *)
Lemma patched_variable_hide (v v' : value) (d' : list (str * value)) :
  patched_variable v v' -> v' = VDict d' ->
  (exists name, dict_get d' (py "name") = Some name /\ eq_str name (py "cluster") = true) ->
  dict_get d' (py "hide") = Some (VStr sentinel).
Proof.
  intros Hp -> (name & Hname & Hcluster). inversion Hp; subst.
  - apply dict_get_set_eq.
  - congruence.
Qed.

Section PatchResult.
Context `{Library}.

(** X6.  When the [try] block completes and the rebuilt text holds the
    sentinel once, as the quoted value of a [hide] key, the output has
    the Helm expression there (0 when the multicluster flag is set, 2
    otherwise) and no sentinel. *)
Theorem single_sentinel_becomes_expression (content p s : str) :
  reconstructed content = Return (p ++ pyq "~hide~: ~:multicluster:~" ++ s) ->
  contains p sentinel = false ->
  contains s sentinel = false ->
  patch_json_for_multicluster_configuration content =
    Return (p ++ pyq "~hide~: " ++ multicluster_expr ++ s) /\
  contains (p ++ pyq "~hide~: " ++ multicluster_expr ++ s) sentinel = false.
Proof.
  intros Hrec Hp Hs. split.
  - unfold patch_json_for_multicluster_configuration, patch_body.
    rewrite Hrec. cbn [bind]. now rewrite replace_quoted_sentinel.
  - rewrite app_assoc. apply no_sentinel_after_replace; [|assumption].
    now apply no_sentinel_before_hide.
Qed.

End PatchResult.

Lemma single_sentinel_becomes_expression_witness :
  reconstructed dashboard_with_cluster =
    Return (dashboard_before_hide ++ pyq "~hide~: ~:multicluster:~" ++ dashboard_after_hide) /\
  contains dashboard_before_hide sentinel = false /\
  contains dashboard_after_hide sentinel = false /\
  patch_json_for_multicluster_configuration dashboard_with_cluster =
    Return (dashboard_before_hide ++ pyq "~hide~: " ++ multicluster_expr ++
            dashboard_after_hide) /\
  contains (dashboard_before_hide ++ pyq "~hide~: " ++ multicluster_expr ++
            dashboard_after_hide) sentinel = false.
Proof.
  assert (Hrec : reconstructed dashboard_with_cluster =
                 Return (dashboard_before_hide ++ pyq "~hide~: ~:multicluster:~" ++
                         dashboard_after_hide)) by (vm_compute; reflexivity).
  assert (Hp : contains dashboard_before_hide sentinel = false) by (vm_compute; reflexivity).
  assert (Hs : contains dashboard_after_hide sentinel = false) by (vm_compute; reflexivity).
  repeat (split; [assumption|]).
  exact (single_sentinel_becomes_expression dashboard_with_cluster dashboard_before_hide
           dashboard_after_hide Hrec Hp Hs).
Defined.

(** C3, as stated, fails: a variable without a name makes the loop raise
    [KeyError], and the dashboard, which has a [cluster] variable, is
    written with its [hide] as it was. *)
Lemma cluster_variable_left_unpatched :
  (dashboard <- json_loads dashboard_with_unnamed_variable ;;
   Return (has_cluster_variable dashboard)) = Return true /\
  patch_json_for_multicluster_configuration dashboard_with_unnamed_variable =
    Return dashboard_with_unnamed_variable /\
  contains dashboard_with_unnamed_variable (pyq "~hide~: 0") = true /\
  contains dashboard_with_unnamed_variable multicluster_expr = false.
Proof. vm_compute. repeat split; reflexivity. Qed.

(** Only the first sentinel is replaced: with two [cluster] variables
    the second one stays in the output. *)
Lemma second_sentinel_stays :
  exists out : str,
    patch_json_for_multicluster_configuration dashboard_with_two_clusters = Return out /\
    contains out (pyq "~hide~: ~:multicluster:~") = true.
Proof. eexists. vm_compute. split; reflexivity. Qed.

(** ** The multicluster patch: the lines *)

Lemma endswith_app (x p : str) : endswith (x ++ p) p = true.
Proof. unfold endswith. rewrite rev_app_distr. apply startswith_app. Qed.

Lemma endswith_last (x : str) (c : N) (p : str) (d : N) :
  endswith (x ++ [c]) (p ++ [d]) = (d =? c) && endswith x p.
Proof. unfold endswith. rewrite !rev_app_distr. reflexivity. Qed.

Lemma slice_to_minus_1 (x : str) (c : N) : slice_to (x ++ [c]) (-1) = x.
Proof.
  unfold slice_to. cbn [Z.ltb Z.compare]. rewrite length_app. cbn [length].
  replace (Z.to_nat _) with (length x) by lia. apply take_app_length.
Qed.

Lemma slice_from_minus_1 (x : str) (c : N) : slice_from (x ++ [c]) (-1) = [c].
Proof.
  unfold slice_from. cbn [Z.ltb Z.compare]. rewrite length_app. cbn [length].
  replace (Z.to_nat _) with (length x) by lia. apply drop_app_length.
Qed.

Lemma lstrip_app (body : str) (c : N) (rest : str) :
  isspace c = false ->
  lstrip (body ++ c :: rest) = lstrip body ++ c :: rest.
Proof.
  intros Hc. induction body as [|d body IH]; simpl.
  - now rewrite Hc.
  - destruct (isspace d); [exact IH | reflexivity].
Qed.

Lemma length_lstrip (body : str) : (length (lstrip body) <= length body)%nat.
Proof.
  induction body as [|d body IH]; simpl; [lia|].
  destruct (isspace d); simpl; lia.
Qed.

Lemma indentation_app (body : str) (c : N) (rest : str) :
  isspace c = false ->
  (length (body ++ c :: rest) - length (lstrip (body ++ c :: rest)) =
   length body - length (lstrip body))%nat.
Proof.
  intros Hc. rewrite lstrip_app by assumption. rewrite !length_app.
  pose proof (length_lstrip body). lia.
Qed.

(** A line that differs from the original one and ends with an empty
    literal (and a comma or not) becomes three lines. *)
Lemma reconcile_line_split (orig : list str) (i : nat) (body : str) (curly comma : bool)
    (original : str) :
  nth_error orig i = Some original ->
  original <> body ++ [bracket_open curly; bracket_close curly] ++ trailing_comma comma ->
  reconcile_line orig i (body ++ [bracket_open curly; bracket_close curly] ++
                         trailing_comma comma) =
  Return [body ++ [bracket_open curly];
          [];
          times 32 (length body - length (lstrip body)) ++ [bracket_close curly] ++
          trailing_comma comma].
Proof.
  intros Hnth Hne. unfold reconcile_line.
  set (line := body ++ [bracket_open curly; bracket_close curly] ++ trailing_comma comma) in *.
  assert (Hlit : negb (contains line (py "[]")) && negb (contains line (py "{}")) = false).
  { subst line. destruct curly.
    - change [bracket_open true; bracket_close true] with (py "{}").
      rewrite contains_app_intro. apply andb_false_r.
    - change [bracket_open false; bracket_close false] with (py "[]").
      now rewrite contains_app_intro. }
  rewrite Hlit, Hnth. cbn [bind].
  replace (str_eqb line original) with false
    by (symmetry; apply str_eqb_neq; congruence).
  assert (Hbare : slice_to (body ++ [bracket_open curly; bracket_close curly]) (-1) =
                  body ++ [bracket_open curly]).
  { change (body ++ [bracket_open curly; bracket_close curly])
      with (body ++ [bracket_open curly] ++ [bracket_close curly]).
    rewrite app_assoc. apply slice_to_minus_1. }
  assert (Hlast : slice_from (body ++ [bracket_open curly; bracket_close curly]) (-1) =
                  [bracket_close curly]).
  { change (body ++ [bracket_open curly; bracket_close curly])
      with (body ++ [bracket_open curly] ++ [bracket_close curly]).
    rewrite app_assoc. apply slice_from_minus_1. }
  assert (Hends : endswith (body ++ [bracket_open curly; bracket_close curly]) (py "{}") ||
                  endswith (body ++ [bracket_open curly; bracket_close curly]) (py "[]") = true).
  { destruct curly.
    - change [bracket_open true; bracket_close true] with (py "{}").
      now rewrite endswith_app.
    - change [bracket_open false; bracket_close false] with (py "[]").
      rewrite endswith_app. apply orb_true_r. }
  assert (Hindent : (length (body ++ [bracket_open curly; bracket_close curly]) -
                     length (lstrip (body ++ [bracket_open curly; bracket_close curly])) =
                     length body - length (lstrip body))%nat).
  { apply indentation_app. now destruct curly. }
  subst line. destruct comma; cbn [trailing_comma].
  - change (body ++ [bracket_open curly; bracket_close curly] ++ [44])
      with (body ++ [bracket_open curly; bracket_close curly] ++ py ",").
    rewrite app_assoc, endswith_app.
    change (py ",") with [44]. rewrite !slice_to_minus_1.
    rewrite Hends, Hbare, Hlast, Hindent. reflexivity.
  - rewrite app_nil_r.
    replace (endswith (body ++ [bracket_open curly; bracket_close curly]) (py ","))
      with false.
    + rewrite Hends, Hbare, Hlast, Hindent. now rewrite app_nil_r.
    + change (body ++ [bracket_open curly; bracket_close curly])
        with (body ++ [bracket_open curly] ++ [bracket_close curly]).
      rewrite app_assoc. change (py ",") with ([] ++ [44]).
      rewrite endswith_last. now destruct curly.
Qed.

Lemma reconcile_line_plain (orig : list str) (i : nat) (line : str) :
  contains line (py "[]") = false -> contains line (py "{}") = false ->
  reconcile_line orig i line = Return [line].
Proof. intros Hsquare Hcurly. unfold reconcile_line. now rewrite Hsquare, Hcurly. Qed.

Lemma reconcile_line_same (orig : list str) (i : nat) (line : str) :
  nth_error orig i = Some line -> reconcile_line orig i line = Return [line].
Proof.
  intros Hnth. unfold reconcile_line. rewrite Hnth.
  destruct (negb _ && negb _); cbn [bind]; [reflexivity|].
  now rewrite str_eqb_refl.
Qed.

(** C5, as amended.  A line without an empty literal, or equal to the
    original line of the same number, is kept; a line that differs from
    it and ends with an empty literal, before a comma or not, becomes
    three lines: the line up to the opening bracket, an empty line, and
    the closing bracket behind as many spaces as the line had white
    space in front, with the comma if there was one. *)
Theorem reconcile_line_cases (orig : list str) (i : nat) (line : str) :
  (contains line (py "[]") = false -> contains line (py "{}") = false ->
   reconcile_line orig i line = Return [line]) /\
  (nth_error orig i = Some line -> reconcile_line orig i line = Return [line]) /\
  (forall (body : str) (curly comma : bool) (original : str),
     line = body ++ [bracket_open curly; bracket_close curly] ++ trailing_comma comma ->
     nth_error orig i = Some original ->
     original <> line ->
     reconcile_line orig i line =
     Return [body ++ [bracket_open curly];
             [];
             times 32 (length body - length (lstrip body)) ++ [bracket_close curly] ++
             trailing_comma comma]).
Proof.
  split; [apply reconcile_line_plain|]. split; [apply reconcile_line_same|].
  intros body curly comma original -> Hnth Hne.
  now apply reconcile_line_split with original.
Qed.

(** Lines that are dumped as they were written, at their place in the
    original text, are kept. *)
Lemma reconcile_within (pre lines post : list str) :
  reconcile (pre ++ lines ++ post) (length pre) lines = Return lines.
Proof.
  revert pre. induction lines as [|line rest IH]; intros pre; [reflexivity|].
  cbn [reconcile]. rewrite reconcile_line_same.
  - cbn [bind app].
    replace (pre ++ line :: rest ++ post) with ((pre ++ [line]) ++ rest ++ post)
      by now rewrite <- app_assoc.
    replace (S (length pre)) with (length (pre ++ [line]))
      by (rewrite length_app; cbn [length]; lia).
    now rewrite IH.
  - rewrite nth_error_app2 by lia. now rewrite Nat.sub_diag.
Qed.

(** X3. The reconciliation of a text with itself keeps every line. *)
Theorem reconcile_same (lines : list str) : reconcile lines 0 lines = Return lines.
Proof.
  pose proof (reconcile_within [] lines []) as Hsame.
  now rewrite app_nil_r in Hsame.
Qed.

(** The dumped line [        "list": [],] against a line indented by two
    spaces. *)
Lemma reconcile_line_cases_witness :
  let orig := [py "{"; pyq "  ~list~: [],"] in
  let line := pyq "        ~list~: []," in
  line = pyq "        ~list~: " ++ [bracket_open false; bracket_close false] ++
         trailing_comma true /\
  nth_error orig 1 = Some (pyq "  ~list~: [],") /\
  pyq "  ~list~: []," <> line /\
  reconcile_line orig 1 line =
    Return [pyq "        ~list~: ["; []; pyq "        ],"].
Proof.
  intros orig line.
  assert (Hline : line = pyq "        ~list~: " ++ [bracket_open false; bracket_close false] ++
                         trailing_comma true) by reflexivity.
  assert (Hnth : nth_error orig 1 = Some (pyq "  ~list~: [],")) by reflexivity.
  assert (Hne : pyq "  ~list~: []," <> line) by (vm_compute; discriminate).
  repeat (split; [assumption|]).
  destruct (reconcile_line_cases orig 1 line) as (_ & _ & Hsplit).
  rewrite (Hsplit _ false true _ Hline Hnth Hne).
  vm_compute. reflexivity.
Defined.

(** C5, as stated, fails: a line that holds an empty literal, differs
    from the original line and does not end with the literal is left
    out, not replaced by three lines. *)
Lemma line_with_inner_literal_dropped :
  let original := pyq "  ~expr~: ~up{}~," in
  let line := pyq "    ~expr~: ~up{}~," in
  contains line (py "{}") = true /\
  nth_error [original] 0 = Some original /\
  str_eqb line original = false /\
  reconcile_line [original] 0 line = Return [].
Proof. vm_compute. repeat split; reflexivity. Qed.

(** On a whole dashboard: the [expr] line is lost. *)
Lemma inner_literal_line_lost :
  exists out : str,
    patch_json_for_multicluster_configuration dashboard_with_inner_literal = Return out /\
    contains dashboard_with_inner_literal (py "expr") = true /\
    contains out (py "expr") = false.
Proof. eexists. vm_compute. repeat split; reflexivity. Qed.

(** ** The sources *)

Lemma json_chart_path (c : chart) :
  In c charts -> type c = py "json" ->
  output_path (destination c) (replace (basename (source c)) (py ".json") []) =
  destination c ++ py "/" ++ replace (basename (source c)) (py ".json") (py ".yaml").
Proof.
  intros Hin Htype. unfold charts in Hin. cbn [In] in Hin.
  destruct Hin as [<-|[<-|[<-|[<-|[<-|[]]]]]];
    try (vm_compute; reflexivity).
  vm_compute in Htype. discriminate.
Qed.

Section Sources.
Context `{Library}.

(** C7, as amended.  For a JSON source of the list whose response is
    200 and whose top-level object has a truthy [annotations], if the
    emit step raises nothing, the source writes one file: the text of
    the emit step, under the last segment of the URL with [.json]
    replaced by [.yaml]. *)
Theorem flat_json_source_writes_one_file (get : str -> response) (c : chart) (w : world)
    (d : list (str * value)) (annotations : value) (lines : str) :
  In c charts ->
  type c = py "json" ->
  status_code (get (source c)) = 200%Z ->
  json_loads (text (get (source c))) = Return (VDict d) ->
  dict_get d (py "annotations") = Some annotations ->
  truthy annotations = true ->
  group_lines (replace (basename (source c)) (py ".json") []) (json_dumps (VDict d))
    (source c) = Return lines ->
  process_chart get c w =
  (Return tt,
   {| files := <[destination c ++ py "/" ++
                 replace (basename (source c)) (py ".json") (py ".yaml") := lines]> (files w);
      dirs := {[destination c]} ∪ dirs w;
      stdout := stdout w ++
        [py "Generating dashboards from " ++ source c;
         py "Generated " ++ destination c ++ py "/" ++
         replace (basename (source c)) (py ".json") (py ".yaml")] |}).
Proof.
  intros Hin Htype Hstatus Hloads Hann Htruthy Hlines.
  unfold process_chart, io_bind at 1, print at 1.
  rewrite Hstatus, Htype. cbn [Z.eqb Pos.eqb negb].
  change (str_eqb (py "json") (py "yaml")) with false.
  change (str_eqb (py "json") (py "json")) with true. cbv iota.
  unfold process_json, io_bind, lift.
  rewrite Hloads. cbn [dict_get_method]. rewrite Hann, Htruthy.
  rewrite write_group_to_file_eq, Hlines.
  rewrite (json_chart_path c Hin Htype). cbn [files dirs stdout].
  now rewrite <- app_assoc.
Qed.

End Sources.

(** The third source with a small flat dashboard. *)
Lemma flat_json_source_writes_one_file_witness :
  let body := pyq "{~annotations~: {~list~: [1]}, ~title~: ~vm~}" in
  let get := always 200 body in
  let c := victoriametrics_chart in
  exists (d : list (str * value)) (annotations : value) (lines : str),
    In c charts /\
    type c = py "json" /\
    status_code (get (source c)) = 200%Z /\
    json_loads (text (get (source c))) = Return (VDict d) /\
    dict_get d (py "annotations") = Some annotations /\
    truthy annotations = true /\
    group_lines (replace (basename (source c)) (py ".json") []) (json_dumps (VDict d))
      (source c) = Return lines /\
    process_chart get c empty_world =
    (Return tt,
     {| files := {[py "../templates/grafana/dashboards/victoriametrics.yaml" := lines]};
        dirs := {[dashboards_dir]} ∪ ∅;
        stdout :=
          [py "Generating dashboards from " ++ source c;
           py "Generated ../templates/grafana/dashboards/victoriametrics.yaml"] |}).
Proof.
  intros body get c.
  assert (Hin : In c charts) by (right; right; left; reflexivity).
  destruct (json_loads body) as [[| | | | | |d]|] eqn:Hloads;
    try (vm_compute in Hloads; discriminate).
  destruct (dict_get d (py "annotations")) as [annotations|] eqn:Hann;
    [|vm_compute in Hloads; injection Hloads as <-; vm_compute in Hann; discriminate].
  assert (Htruthy : truthy annotations = true).
  { vm_compute in Hloads. injection Hloads as <-. vm_compute in Hann.
    injection Hann as <-. reflexivity. }
  destruct (group_lines (replace (basename (source c)) (py ".json") [])
              (json_dumps (VDict d)) (source c)) as [lines|] eqn:Hlines;
    [|vm_compute in Hloads; injection Hloads as <-; vm_compute in Hlines; discriminate].
  exists d, annotations, lines.
  repeat (split; [first [assumption | reflexivity]|]).
  exact (flat_json_source_writes_one_file get c empty_world d annotations lines
           Hin eq_refl eq_refl Hloads Hann Htruthy Hlines).
Defined.

(** C7, as stated, fails: the object has a truthy [annotations], but its
    [templating] is a number, the patch raises [TypeError], which its
    [except] clause lets through, and the run ends without a file. *)
Lemma flat_json_source_without_file :
  let get := serve (source victoriametrics_chart) flat_body_with_bad_templating in
  In victoriametrics_chart charts /\
  (json_text <- json_loads flat_body_with_bad_templating ;;
   annotations <- dict_get_method json_text (py "annotations") ;;
   Return (truthy annotations)) = Return true /\
  process_chart get victoriametrics_chart empty_world =
  (Raise TypeError,
   {| files := ∅; dirs := ∅;
      stdout := [py "Generating dashboards from " ++ source victoriametrics_chart] |}) /\
  (main get empty_world).1 = Raise TypeError /\
  files (main get empty_world).2 = ∅.
Proof.
  split; [right; right; left; reflexivity|].
  vm_compute. repeat split; reflexivity.
Qed.

(** ** The skip list *)

Section SkipList.
Context `{Library}.




End SkipList.


(** C1 on the code: the key [prometheus.json] is in the skip list; the
    nested JSON source writes [prometheus.yaml] for it, the YAML source
    writes nothing. *)
Lemma nested_json_source_ignores_skip_list :
  let json_run := process_chart (serve etcd_url nested_body_with_skipped_key)
                    etcd_chart empty_world in
  let yaml_run := process_chart (serve (source kube_prometheus_chart)
                                   yaml_body_with_skipped_key)
                    kube_prometheus_chart empty_world in
  existsb (str_eqb (py "prometheus.json")) skip_list = true /\
  json_run.1 = Return tt /\
  (exists lines : str,
     files json_run.2 !! py "../templates/grafana/dashboards/prometheus.yaml" = Some lines) /\
  yaml_run.1 = Return tt /\
  files yaml_run.2 = ∅.
Proof. vm_compute. repeat split; try reflexivity. eexists. reflexivity. Qed.

(** ** Escaping *)

(** C2 on the code: a pair of opening braces followed by a closing brace,
    a backtick and a pair of closing braces.  The last replacement of
    [escape] takes the braces that the third one has just written for
    the start of a match, and the wrapped form of the opening pair is
    nowhere in the output. *)
Lemma escape_breaks_wrapped_braces :
  let content := py "{{}`}}" in
  contains content (py "\{\{") = false /\
  startswith content (py "{{") = true /\
  unescape (escape content) = py "{{`{{`}{{`}}`}}`}}" /\
  contains (unescape (escape content)) (py "{{`{{`}}") = false /\
  escape_spec content = py "{{`{{`}}}`{{`}}`}}" /\
  yaml_str_repr (py "d.json") content = py "  d.json: |-
    {{`{{`}{{`}}`}}`}}
".
Proof. vm_compute. repeat split; reflexivity. Qed.

(** A backslash-escaped opening brace before a pair of closing braces:
    [unescape] reads the brace that [escape] has put there as the end of
    an escaped pair. *)
Lemma unescape_takes_brace_of_escape :
  unescape (escape (py "\{\}}")) = py "{{{`}}`}}" /\
  escape_spec (py "\{\}}") = py "\{\{{`}}`}}".
Proof. vm_compute. split; reflexivity. Qed.

(** ** [str.replace]: equations *)

Lemma replace_scan_drop (old new : str) (k : nat) (s : str) :
  old <> [] -> replace_scan old new k s = replace_scan old new 0 (drop k s).
Proof.
  intros Hold. revert k. induction s as [|c s IH]; intros k.
  - destruct k; [reflexivity|]. destruct old; [congruence | reflexivity].
  - destruct k; [reflexivity|]. cbn [replace_scan drop]. apply IH.
Qed.

Lemma replace_nil (old new : str) : old <> [] -> replace [] old new = [].
Proof. destruct old; [congruence | reflexivity]. Qed.

Lemma replace_match (old new r : str) :
  old <> [] -> replace (old ++ r) old new = new ++ replace r old new.
Proof.
  intros Hold. destruct old as [|a o]; [congruence|].
  unfold replace. change ((a :: o) ++ r) with (a :: (o ++ r)).
  cbn [replace_scan].
  change (a :: (o ++ r)) with ((a :: o) ++ r). rewrite startswith_app.
  rewrite replace_scan_drop by assumption. now rewrite drop_app_length.
Qed.

Lemma replace_nomatch (c : N) (s old new : str) :
  startswith (c :: s) old = false ->
  replace (c :: s) old new = c :: replace s old new.
Proof. intros Hs. unfold replace. cbn [replace_scan]. now rewrite Hs. Qed.

Lemma replace_cons_ne (c : N) (s : str) (a : N) (o new : str) :
  a <> c -> replace (c :: s) (a :: o) new = c :: replace s (a :: o) new.
Proof.
  intros Hne. apply replace_nomatch. cbn [startswith].
  apply N.eqb_neq in Hne. now rewrite Hne.
Qed.

(** A replacement that starts like its pattern keeps the first
    character of the text. *)
Lemma replace_head (s : str) (a : N) (o n : str) (c : N) :
  startswith (replace s (a :: o) (a :: n)) [c] = startswith s [c].
Proof.
  destruct s as [|d s]; [reflexivity|].
  destruct (startswith (d :: s) (a :: o)) eqn:Hm.
  - destruct (startswith_inv _ _ Hm) as [r Hr]. injection Hr as -> ->.
    change (a :: o ++ r) with ((a :: o) ++ r). rewrite replace_match by discriminate.
    reflexivity.
  - now rewrite replace_nomatch.
Qed.

Lemma startswith_head_false (x : str) (c : N) (t : str) :
  startswith x [c] = false -> startswith x (c :: t) = false.
Proof.
  destruct x as [|d x]; [reflexivity|]. cbn [startswith].
  rewrite andb_true_r. now intros ->.
Qed.

Lemma startswith_head_true (x : str) (c : N) (t : str) :
  startswith x (c :: t) = true -> startswith x [c] = true.
Proof.
  destruct x as [|d x]; [discriminate|]. cbn [startswith].
  intros Hx. apply andb_true_iff in Hx as [-> _]. reflexivity.
Qed.

(** ** The passes of [escape] and [unescape] *)

Local Abbreviation P1 s := (replace s [123; 123] [123; 123; 96; 123; 123]).
Local Abbreviation P2 s := (replace s [125; 125] [125; 125; 96; 125; 125]).
Local Abbreviation P3 s :=
  (replace s [123; 123; 96; 123; 123] [123; 123; 96; 123; 123; 96; 125; 125]).
Local Abbreviation P4 s :=
  (replace s [125; 125; 96; 125; 125] [123; 123; 96; 125; 125; 96; 125; 125]).
Local Abbreviation W s := (P3 (P2 (P1 s))).
Local Abbreviation U1 s := (replace s [92; 123; 92; 123] [123; 123]).
Local Abbreviation U2 s := (replace s [92; 125; 92; 125] [125; 125]).

(** A character that is not the first of the pattern [a :: _] goes through. *)
Ltac pass a := rewrite (replace_cons_ne _ _ a) by discriminate.

Lemma escape_passes (s : str) : escape s = P4 (W s).
Proof. reflexivity. Qed.

Lemma unescape_passes (s : str) : unescape s = U2 (U1 s).
Proof. reflexivity. Qed.

Lemma startswith_one (c d : N) (s : str) : startswith (d :: s) [c] = (c =? d).
Proof. cbn [startswith]. apply andb_true_r. Qed.

Lemma startswith_cons (c d : N) (s p : str) :
  startswith (d :: s) (c :: p) = (c =? d) && startswith s p.
Proof. reflexivity. Qed.

(** The first characters agree: go on with the rest. *)
Ltac same_head := rewrite startswith_cons, N.eqb_refl; cbn [andb].

Lemma wrap_head (s : str) (c : N) : startswith (W s) [c] = startswith s [c].
Proof. now rewrite !replace_head. Qed.

Lemma wrap_cons_other (c : N) (s : str) :
  c <> 123 -> c <> 125 -> W (c :: s) = c :: W s.
Proof.
  intros Ho Hc.
  rewrite (replace_cons_ne c s 123) by congruence.
  rewrite (replace_cons_ne c _ 125) by congruence.
  rewrite (replace_cons_ne c _ 123) by congruence.
  reflexivity.
Qed.

Lemma wrap_cons_open (s : str) :
  startswith s [123] = false -> W (123 :: s) = 123 :: W s.
Proof.
  intros Hs.
  rewrite (replace_nomatch 123 s) by (same_head; exact Hs).
  pass 125.
  rewrite replace_nomatch; [reflexivity|].
  same_head. apply startswith_head_false.
  now rewrite !replace_head.
Qed.

Lemma wrap_cons_close (s : str) :
  startswith s [125] = false -> W (125 :: s) = 125 :: W s.
Proof.
  intros Hs. pass 123.
  rewrite replace_nomatch.
  - now pass 123.
  - same_head. now rewrite replace_head.
Qed.

Lemma wrap_open_pair (s : str) :
  W (123 :: 123 :: s) = [123; 123; 96; 123; 123; 96; 125; 125] ++ W s.
Proof.
  change (123 :: 123 :: s) with ([123; 123] ++ s).
  rewrite replace_match by discriminate. cbn [app]. do 5 pass 125.
  change (123 :: 123 :: 96 :: 123 :: 123 :: P2 (P1 s))
    with ([123; 123; 96; 123; 123] ++ P2 (P1 s)).
  now rewrite replace_match by discriminate.
Qed.

Lemma wrap_close_pair (s : str) :
  W (125 :: 125 :: s) = [125; 125; 96; 125; 125] ++ W s.
Proof.
  do 2 pass 123.
  change (125 :: 125 :: P1 s) with ([125; 125] ++ P1 s).
  rewrite replace_match by discriminate. cbn [app]. now do 5 pass 123.
Qed.

(** What the text starts with, read off what the three passes give. *)
Lemma wrap_reflects_close_pair (s : str) :
  startswith (W s) [125; 125] = true -> startswith s [125; 125] = true.
Proof.
  intros Hw. pose proof (startswith_head_true _ _ _ Hw) as Hh.
  rewrite wrap_head in Hh. destruct s as [|c s]; [discriminate|].
  rewrite startswith_one in Hh. apply N.eqb_eq in Hh. subst c.
  destruct (startswith s [125]) eqn:Hs.
  - same_head. exact Hs.
  - rewrite wrap_cons_close in Hw by assumption.
    rewrite startswith_cons, N.eqb_refl in Hw. cbn [andb] in Hw.
    rewrite wrap_head in Hw. congruence.
Qed.

Lemma wrap_reflects_tick (s : str) :
  startswith (W s) [96; 125; 125] = true -> startswith s [96; 125; 125] = true.
Proof.
  intros Hw. pose proof (startswith_head_true _ _ _ Hw) as Hh.
  rewrite wrap_head in Hh. destruct s as [|c s]; [discriminate|].
  rewrite startswith_one in Hh. apply N.eqb_eq in Hh. subst c.
  rewrite wrap_cons_other in Hw by discriminate.
  rewrite startswith_cons, N.eqb_refl in Hw. cbn [andb] in Hw.
  same_head. now apply wrap_reflects_close_pair.
Qed.

Lemma wrap_reflects_close_tick (s : str) :
  startswith (W s) [125; 96; 125; 125] = true ->
  startswith s [125; 96; 125; 125] = true.
Proof.
  intros Hw. pose proof (startswith_head_true _ _ _ Hw) as Hh.
  rewrite wrap_head in Hh. destruct s as [|c s]; [discriminate|].
  rewrite startswith_one in Hh. apply N.eqb_eq in Hh. subst c.
  destruct (startswith s [125]) eqn:Hs.
  - destruct s as [|d s]; [discriminate|].
    rewrite startswith_one in Hs. apply N.eqb_eq in Hs. subst d.
    rewrite wrap_close_pair in Hw. discriminate.
  - rewrite wrap_cons_close in Hw by assumption.
    rewrite startswith_cons, N.eqb_refl in Hw. cbn [andb] in Hw.
    same_head. now apply wrap_reflects_tick.
Qed.

Lemma startswith_prefix (x p q : str) :
  startswith x (p ++ q) = true -> startswith x p = true.
Proof.
  intros Hx. destruct (startswith_inv _ _ Hx) as [r ->].
  rewrite <- app_assoc. apply startswith_app.
Qed.

(** The three ways a replacement starts. *)
Lemma replace_cases (s old new : str) :
  old <> [] ->
  (s = [] /\ replace s old new = []) \/
  (exists r, s = old ++ r /\ replace s old new = new ++ replace r old new) \/
  (exists d s', s = d :: s' /\ startswith s old = false /\
                replace s old new = d :: replace s' old new).
Proof.
  intros Hold. destruct s as [|d s].
  - left. split; [reflexivity | now apply replace_nil].
  - right. destruct (startswith (d :: s) old) eqn:Hm.
    + left. destruct (startswith_inv _ _ Hm) as [r Hr]. exists r.
      split; [exact Hr|]. rewrite Hr. now apply replace_match.
    + right. exists d, s. split; [reflexivity|]. split; [reflexivity|].
      now apply replace_nomatch.
Qed.

(** ** [escape]: equations *)

Lemma escape_nil : escape [] = [].
Proof. reflexivity. Qed.

Lemma escape_cons_other (c : N) (s : str) :
  c <> 123 -> c <> 125 -> escape (c :: s) = c :: escape s.
Proof.
  intros Ho Hc. rewrite !escape_passes, wrap_cons_other by assumption.
  now rewrite (replace_cons_ne c _ 125) by congruence.
Qed.

Lemma escape_cons_open (s : str) :
  startswith s [123] = false -> escape (123 :: s) = 123 :: escape s.
Proof.
  intros Hs. rewrite !escape_passes, wrap_cons_open by assumption. now pass 125.
Qed.

Lemma escape_cons_close (s : str) :
  startswith s [125] = false -> escape (125 :: s) = 125 :: escape s.
Proof.
  intros Hs. rewrite !escape_passes, wrap_cons_close by assumption.
  rewrite replace_nomatch; [reflexivity|].
  same_head. apply startswith_head_false. now rewrite wrap_head.
Qed.

Lemma escape_open_pair_start (s : str) :
  exists t, escape (123 :: 123 :: s) = 123 :: 123 :: t.
Proof.
  rewrite escape_passes, wrap_open_pair. cbn [app]. do 2 pass 125. now eexists.
Qed.

Lemma escape_open_pair (s : str) :
  startswith s [96; 125; 125] = false ->
  startswith s [125; 96; 125; 125] = false ->
  escape (123 :: 123 :: s) = [123; 123; 96; 123; 123; 96; 125; 125] ++ escape s.
Proof.
  intros Htick Hclose. rewrite !escape_passes, wrap_open_pair. cbn [app]. do 6 pass 125.
  rewrite replace_nomatch.
  - rewrite replace_nomatch; [reflexivity|].
    same_head. destruct (startswith (W s) [125; 96; 125; 125]) eqn:Hw; [|reflexivity].
    apply wrap_reflects_close_tick in Hw. congruence.
  - do 2 same_head. destruct (startswith (W s) [96; 125; 125]) eqn:Hw; [|reflexivity].
    apply wrap_reflects_tick in Hw. congruence.
Qed.

Lemma escape_close_pair (s : str) :
  escape (125 :: 125 :: s) = [123; 123; 96; 125; 125; 96; 125; 125] ++ escape s.
Proof.
  rewrite !escape_passes, wrap_close_pair.
  now rewrite replace_match by discriminate.
Qed.

(** What [escape] starts with. *)
Lemma escape_head_other (s : str) (c : N) :
  c <> 123 -> startswith (escape s) [c] = true -> startswith s [c] = true.
Proof.
  intros Hc He. rewrite escape_passes in He.
  destruct (replace_cases (W s) [125; 125; 96; 125; 125]
              [123; 123; 96; 125; 125; 96; 125; 125])
    as [[_ Hr]|[(r & _ & Hr)|(d & z & Hz & _ & Hr)]]; [discriminate| | |];
    rewrite Hr in He.
  - discriminate.
  - cbn [app] in He. rewrite startswith_one in He. apply N.eqb_eq in He. congruence.
  - rewrite startswith_one in He. rewrite <- (wrap_head s c), Hz.
    now rewrite startswith_one.
Qed.

Lemma escape_head_open (s : str) :
  startswith (escape s) [123] = true ->
  startswith s [123] = true \/ startswith s [125; 125] = true.
Proof.
  intros He. rewrite escape_passes in He.
  destruct (replace_cases (W s) [125; 125; 96; 125; 125]
              [123; 123; 96; 125; 125; 96; 125; 125])
    as [[_ Hr]|[(r & Hz & _)|(d & z & Hz & _ & Hr)]]; [discriminate| | |].
  - rewrite Hr in He. discriminate.
  - right. apply wrap_reflects_close_pair. rewrite Hz. reflexivity.
  - left. rewrite Hr in He. rewrite startswith_one in He.
    rewrite <- (wrap_head s 123), Hz. now rewrite startswith_one.
Qed.

(** [escape] does not begin an escaped pair after a backslash, unless
    the text has one there or has [{\}}]. *)
Lemma escape_open_backslash_open (s : str) :
  startswith (escape s) [123; 92; 123] = true ->
  startswith s [123; 92; 123] = true \/ startswith s [123; 92; 125; 125] = true.
Proof.
  intros He. destruct (escape_head_open s (startswith_head_true _ _ _ He)) as [Ho|Hcc].
  - destruct s as [|c s]; [discriminate|].
    rewrite startswith_one in Ho. apply N.eqb_eq in Ho. subst c.
    destruct (startswith s [123]) eqn:Hs.
    + destruct s as [|c s]; [discriminate|].
      rewrite startswith_one in Hs. apply N.eqb_eq in Hs. subst c.
      destruct (escape_open_pair_start s) as [t Ht]. rewrite Ht in He. discriminate.
    + rewrite escape_cons_open in He by assumption.
      rewrite startswith_cons, N.eqb_refl in He. cbn [andb] in He.
      pose proof (escape_head_other s 92 ltac:(discriminate)
                    (startswith_head_true _ _ _ He)) as Hb.
      destruct s as [|c s]; [discriminate|].
      rewrite startswith_one in Hb. apply N.eqb_eq in Hb. subst c.
      rewrite escape_cons_other in He by discriminate.
      rewrite startswith_cons, N.eqb_refl in He. cbn [andb] in He.
      do 2 same_head.
      destruct (escape_head_open s He) as [Ho|Hcc]; [left | right]; assumption.
  - destruct (startswith_inv _ _ Hcc) as [r ->]. cbn [app] in He.
    rewrite escape_close_pair in He. discriminate.
Qed.

Lemma unescape_open_head (x : str) (c : N) :
  c <> 123 ->
  startswith (U1 x) [c] = true -> exists x', x = c :: x' /\ U1 x = c :: U1 x'.
Proof.
  intros Hc Hx.
  destruct (replace_cases x [92; 123; 92; 123] [123; 123])
    as [[_ Hr]|[(r & _ & Hr)|(d & x' & -> & _ & Hr)]]; [discriminate| | |];
    rewrite Hr in Hx.
  - discriminate.
  - cbn [app] in Hx. rewrite startswith_one in Hx. apply N.eqb_eq in Hx. congruence.
  - rewrite startswith_one in Hx. apply N.eqb_eq in Hx. subst d. now exists x'.
Qed.

(** Nor does the first pass of [unescape] leave the end of an escaped
    pair of closing braces where the text has none. *)
Lemma unescape_close_backslash_close (s : str) :
  startswith (U1 (escape s)) [125; 92; 125] = true ->
  startswith s [125; 92; 125] = true.
Proof.
  intros He.
  destruct (unescape_open_head (escape s) 125 ltac:(discriminate)
              (startswith_head_true _ _ _ He)) as (x1 & Hx1 & Hu1).
  assert (Hs : startswith s [125] = true).
  { apply escape_head_other; [discriminate|]. now rewrite Hx1. }
  destruct s as [|c s]; [discriminate|].
  rewrite startswith_one in Hs. apply N.eqb_eq in Hs. subst c.
  destruct (startswith s [125]) eqn:Hs1.
  { destruct s as [|c s]; [discriminate|].
    rewrite startswith_one in Hs1. apply N.eqb_eq in Hs1. subst c.
    rewrite escape_close_pair in Hx1. discriminate. }
  rewrite escape_cons_close in He by assumption.
  rewrite (replace_cons_ne 125 _ 92) in He by discriminate.
  rewrite startswith_cons, N.eqb_refl in He. cbn [andb] in He.
  destruct (unescape_open_head (escape s) 92 ltac:(discriminate)
              (startswith_head_true _ _ _ He)) as (x2 & Hx2 & Hu2).
  assert (Hb : startswith s [92] = true).
  { apply escape_head_other; [discriminate|]. now rewrite Hx2. }
  destruct s as [|c s]; [discriminate|].
  rewrite startswith_one in Hb. apply N.eqb_eq in Hb. subst c.
  rewrite escape_cons_other in Hx2, Hu2, He by discriminate. injection Hx2 as <-.
  rewrite Hu2 in He.
  rewrite startswith_cons, N.eqb_refl in He. cbn [andb] in He.
  destruct (unescape_open_head (escape s) 125 ltac:(discriminate) He) as (x3 & Hx3 & _).
  do 2 same_head. apply escape_head_other; [discriminate|]. now rewrite Hx3.
Qed.

(** ** [unescape] after [escape]: equations *)

Lemma both_cons_other (c : N) (s : str) :
  c <> 123 -> c <> 125 -> c <> 92 ->
  unescape (escape (c :: s)) = c :: unescape (escape s).
Proof.
  intros Ho Hc Hb. rewrite escape_cons_other by assumption.
  rewrite !unescape_passes. now rewrite !(replace_cons_ne c _ 92) by congruence.
Qed.

Lemma both_cons_open (s : str) :
  startswith s [123] = false ->
  unescape (escape (123 :: s)) = 123 :: unescape (escape s).
Proof.
  intros Hs. rewrite escape_cons_open by assumption.
  rewrite !unescape_passes. now do 2 pass 92.
Qed.

Lemma both_cons_close (s : str) :
  startswith s [125] = false ->
  unescape (escape (125 :: s)) = 125 :: unescape (escape s).
Proof.
  intros Hs. rewrite escape_cons_close by assumption.
  rewrite !unescape_passes. now do 2 pass 92.
Qed.

Lemma both_open_pair (s : str) :
  startswith s [96; 125; 125] = false ->
  startswith s [125; 96; 125; 125] = false ->
  unescape (escape (123 :: 123 :: s)) =
  [123; 123; 96; 123; 123; 96; 125; 125] ++ unescape (escape s).
Proof.
  intros Htick Hclose. rewrite escape_open_pair by assumption.
  rewrite !unescape_passes. cbn [app]. now do 16 pass 92.
Qed.

Lemma both_close_pair (s : str) :
  unescape (escape (125 :: 125 :: s)) =
  [123; 123; 96; 125; 125; 96; 125; 125] ++ unescape (escape s).
Proof.
  rewrite escape_close_pair. rewrite !unescape_passes. cbn [app]. now do 16 pass 92.
Qed.

Lemma both_escaped_open (s : str) :
  startswith s [123] = false ->
  unescape (escape (92 :: 123 :: 92 :: 123 :: s)) = 123 :: 123 :: unescape (escape s).
Proof.
  intros Hs.
  rewrite (escape_cons_other 92) by discriminate.
  rewrite (escape_cons_open (92 :: _)) by reflexivity.
  rewrite (escape_cons_other 92) by discriminate.
  rewrite escape_cons_open by assumption.
  rewrite !unescape_passes.
  change (92 :: 123 :: 92 :: 123 :: escape s) with ([92; 123; 92; 123] ++ escape s).
  rewrite replace_match by discriminate. cbn [app]. now do 2 pass 92.
Qed.

Lemma both_escaped_close (s : str) :
  startswith s [125] = false ->
  unescape (escape (92 :: 125 :: 92 :: 125 :: s)) = 125 :: 125 :: unescape (escape s).
Proof.
  intros Hs.
  rewrite (escape_cons_other 92) by discriminate.
  rewrite (escape_cons_close (92 :: _)) by reflexivity.
  rewrite (escape_cons_other 92) by discriminate.
  rewrite escape_cons_close by assumption.
  rewrite !unescape_passes.
  rewrite (replace_nomatch 92 (125 :: _) [92; 123; 92; 123]) by reflexivity.
  rewrite (replace_cons_ne 125 _ 92 [123; 92; 123]) by discriminate.
  rewrite (replace_nomatch 92 (125 :: _) [92; 123; 92; 123]) by reflexivity.
  rewrite (replace_cons_ne 125 _ 92 [123; 92; 123]) by discriminate.
  change (92 :: 125 :: 92 :: 125 :: U1 (escape s))
    with ([92; 125; 92; 125] ++ U1 (escape s)).
  now rewrite replace_match by discriminate.
Qed.

Lemma both_backslash (s : str) :
  startswith s [123; 92; 123] = false ->
  startswith s [125; 92; 125] = false ->
  startswith s [123; 92; 125; 125] = false ->
  unescape (escape (92 :: s)) = 92 :: unescape (escape s).
Proof.
  intros Hopen Hclose Hmixed.
  rewrite escape_cons_other by discriminate. rewrite !unescape_passes.
  rewrite replace_nomatch.
  - rewrite replace_nomatch; [reflexivity|]. same_head.
    destruct (startswith (U1 (escape s)) [125; 92; 125]) eqn:Hu; [|reflexivity].
    apply unescape_close_backslash_close in Hu. congruence.
  - same_head.
    destruct (startswith (escape s) [123; 92; 123]) eqn:He; [|reflexivity].
    apply escape_open_backslash_open in He as [He|He]; congruence.
Qed.

Lemma well_separated_tail (c : N) (s : str) :
  well_separated (c :: s) = true -> well_separated s = true.
Proof.
  unfold well_separated. cbn [contains]. rewrite !negb_orb.
  rewrite !andb_true_iff. tauto.
Qed.

Lemma contains_false_head (s p : str) :
  contains s p = false -> startswith s p = false.
Proof. destruct s; cbn [contains]; intros Hs; now apply orb_false_iff in Hs as [Hs _]. Qed.

Lemma well_separated_head (s : str) :
  well_separated s = true ->
  startswith s (py "{{`}}") = false /\ startswith s (py "{{}`}}") = false /\
  startswith s (py "\{\{{") = false /\ startswith s (py "\{\}}") = false /\
  startswith s (py "\}\}}") = false.
Proof.
  unfold well_separated. rewrite !andb_true_iff, !negb_true_iff.
  intros ((((Ha & Hb) & Hc) & Hd) & He).
  repeat split; now apply contains_false_head.
Qed.

(** ** The reading of the spec: equations *)

Lemma escape_spec_copy (c : N) (r : str) :
  startswith (c :: r) (py "\{\{") = false ->
  startswith (c :: r) (py "\}\}") = false ->
  startswith (c :: r) (py "{{") = false ->
  startswith (c :: r) (py "}}") = false ->
  escape_spec (c :: r) = c :: escape_spec r.
Proof.
  intros H1 H2 H3 H4. unfold escape_spec. cbn [escape_spec_scan].
  now rewrite H1, H2, H3, H4.
Qed.

Lemma escape_spec_escaped_open (r : str) :
  escape_spec (92 :: 123 :: 92 :: 123 :: r) = 123 :: 123 :: escape_spec r.
Proof. reflexivity. Qed.

Lemma escape_spec_escaped_close (r : str) :
  escape_spec (92 :: 125 :: 92 :: 125 :: r) = 125 :: 125 :: escape_spec r.
Proof. reflexivity. Qed.

Lemma escape_spec_open_pair (r : str) :
  escape_spec (123 :: 123 :: r) =
  [123; 123; 96; 123; 123; 96; 125; 125] ++ escape_spec r.
Proof. reflexivity. Qed.

Lemma escape_spec_close_pair (r : str) :
  escape_spec (125 :: 125 :: r) =
  [123; 123; 96; 125; 125; 96; 125; 125] ++ escape_spec r.
Proof. reflexivity. Qed.

Lemma escape_unescape_by_length (n : nat) (s : str) :
  (length s <= n)%nat -> well_separated s = true ->
  unescape (escape s) = escape_spec s.
Proof.
  revert s. induction n as [|n IH]; intros s Hlen Hsep.
  - destruct s; [reflexivity | cbn [length] in Hlen; lia].
  - destruct s as [|c s]; [reflexivity|]. cbn [length] in Hlen.
    pose proof (well_separated_tail _ _ Hsep) as Hsep1.
    destruct (well_separated_head _ Hsep) as (Ha & Hb & Hc & Hd & He).
    destruct (N.eq_dec c 92) as [->|Hn92].
    { (* a backslash *)
      destruct (startswith s [123; 92; 123]) eqn:Hopen.
      { destruct (startswith_inv _ _ Hopen) as [r ->]. cbn [app] in *.
        rewrite escape_spec_escaped_open.
        rewrite both_escaped_open.
        - f_equal. f_equal. apply IH; [cbn [length] in Hlen; lia|].
          now do 3 apply well_separated_tail in Hsep1.
        - destruct r as [|d r]; [reflexivity|]. rewrite startswith_one.
          change (startswith (92 :: 123 :: 92 :: 123 :: d :: r) (py "\{\{{"))
            with ((123 =? d) && true) in Hc.
          now rewrite andb_true_r in Hc. }
      destruct (startswith s [125; 92; 125]) eqn:Hclose.
      { destruct (startswith_inv _ _ Hclose) as [r ->]. cbn [app] in *.
        rewrite escape_spec_escaped_close.
        rewrite both_escaped_close.
        - f_equal. f_equal. apply IH; [cbn [length] in Hlen; lia|].
          now do 3 apply well_separated_tail in Hsep1.
        - destruct r as [|d r]; [reflexivity|]. rewrite startswith_one.
          change (startswith (92 :: 125 :: 92 :: 125 :: d :: r) (py "\}\}}"))
            with ((125 =? d) && true) in He.
          now rewrite andb_true_r in He. }
      rewrite both_backslash; [|assumption|assumption|exact Hd].
      rewrite escape_spec_copy; [|exact Hopen|exact Hclose|reflexivity|reflexivity].
      f_equal. apply IH; [lia | assumption]. }
    destruct (N.eq_dec c 123) as [->|Hn123].
    { (* an opening brace *)
      destruct (startswith s [123]) eqn:Hpair.
      - destruct s as [|d r]; [discriminate|].
        rewrite startswith_one in Hpair. apply N.eqb_eq in Hpair. subst d.
        rewrite escape_spec_open_pair.
        rewrite both_open_pair; [|exact Ha|exact Hb].
        f_equal. apply IH; [cbn [length] in Hlen; lia|].
        now apply well_separated_tail in Hsep1.
      - rewrite both_cons_open by assumption.
        rewrite escape_spec_copy; [|reflexivity|reflexivity|exact Hpair|reflexivity].
        f_equal. apply IH; [lia | assumption]. }
    destruct (N.eq_dec c 125) as [->|Hn125].
    { (* a closing brace *)
      destruct (startswith s [125]) eqn:Hpair.
      - destruct s as [|d r]; [discriminate|].
        rewrite startswith_one in Hpair. apply N.eqb_eq in Hpair. subst d.
        rewrite escape_spec_close_pair, both_close_pair.
        f_equal. apply IH; [cbn [length] in Hlen; lia|].
        now apply well_separated_tail in Hsep1.
      - rewrite both_cons_close by assumption.
        rewrite escape_spec_copy; [|reflexivity|reflexivity|reflexivity|exact Hpair].
        f_equal. apply IH; [lia | assumption]. }
    (* any other character *)
    rewrite both_cons_other by assumption.
    rewrite escape_spec_copy.
    + f_equal. apply IH; [lia | assumption].
    + change (py "\{\{") with [92; 123; 92; 123]. rewrite startswith_cons.
      apply N.eqb_neq in Hn92. rewrite N.eqb_sym in Hn92. now rewrite Hn92.
    + change (py "\}\}") with [92; 125; 92; 125]. rewrite startswith_cons.
      apply N.eqb_neq in Hn92. rewrite N.eqb_sym in Hn92. now rewrite Hn92.
    + change (py "{{") with [123; 123]. rewrite startswith_cons.
      apply N.eqb_neq in Hn123. rewrite N.eqb_sym in Hn123. now rewrite Hn123.
    + change (py "}}") with [125; 125]. rewrite startswith_cons.
      apply N.eqb_neq in Hn125. rewrite N.eqb_sym in Hn125. now rewrite Hn125.
Qed.

(** X1. On a well separated text the two functions give the one-pass
    reading of the spec: escaped pairs come out plain, the other pairs
    of braces come out wrapped for the engine, the rest is copied. *)
Theorem escape_unescape_as_specified (s : str) :
  well_separated s = true -> unescape (escape s) = escape_spec s.
Proof. apply (escape_unescape_by_length (length s)). lia. Qed.

(** A text with plain, escaped and odd numbers of braces. *)
Lemma escape_unescape_as_specified_witness :
  well_separated (py "a {{ b }} \{\{ c \}\} {{{ }}} `") = true /\
  unescape (escape (py "a {{ b }} \{\{ c \}\} {{{ }}} `")) =
  escape_spec (py "a {{ b }} \{\{ c \}\} {{{ }}} `").
Proof.
  assert (Hsep : well_separated (py "a {{ b }} \{\{ c \}\} {{{ }}} `") = true)
    by (vm_compute; reflexivity).
  split; [exact Hsep|].
  exact (escape_unescape_as_specified _ Hsep).
Defined.

(** The loop on a [cluster] variable followed by another one. *)
Lemma patch_variables_spec_witness :
  let cluster := VDict [(py "name", VStr (py "cluster")); (py "hide", VInt 0)] in
  let other := VDict [(py "name", VStr (py "node"))] in
  let patched := VDict [(py "name", VStr (py "cluster")); (py "hide", VStr sentinel)] in
  patch_variables [cluster; other] = Return [patched; other] /\
  Forall2 patched_variable [cluster; other] [patched; other].
Proof.
  intros cluster other patched.
  assert (Hrun : patch_variables [cluster; other] = Return [patched; other])
    by (vm_compute; reflexivity).
  split; [exact Hrun|].
  exact (patch_variables_spec [cluster; other] [patched; other] Hrun).
Defined.

(** ** The multicluster patch: dashboards without a [cluster] variable *)

Lemma patch_variables_plain (variables : list value) :
  Forall plain_variable variables -> patch_variables variables = Return variables.
Proof.
  induction 1 as [|v rest (d & name & -> & Hname & Hcluster) _ IH]; [reflexivity|].
  cbn [patch_variables getitem]. rewrite Hname. cbn [bind].
  rewrite Hcluster. cbn [bind]. now rewrite IH.
Qed.

Lemma dict_set_same {V : Type} (d : list (str * V)) (k : str) (v : V) :
  dict_get d k = Some v -> dict_set d k v = d.
Proof.
  induction d as [|[k' v'] d IH]; [discriminate|]. cbn [dict_get dict_set].
  destruct (str_eqb k' k).
  - now intros [= ->].
  - intros Hget. now rewrite IH.
Qed.

Lemma split_not_nil (s : str) (sep : N) : split s sep <> [].
Proof.
  destruct s as [|c s]; [discriminate|]. cbn [split].
  destruct (c =? sep); [discriminate|]. now destruct (split s sep).
Qed.

Lemma join_cons (sep x : str) (l : list str) :
  l <> [] -> join sep (x :: l) = x ++ sep ++ join sep l.
Proof. destruct l; [congruence | reflexivity]. Qed.

Lemma join_split (s : str) (sep : N) : join [sep] (split s sep) = s.
Proof.
  induction s as [|c s IH]; [reflexivity|]. cbn [split].
  pose proof (split_not_nil s sep) as Hne.
  destruct (c =? sep) eqn:Hc.
  - apply N.eqb_eq in Hc. subst c.
    rewrite join_cons by assumption. now rewrite IH.
  - destruct (split s sep) as [|l ls] eqn:Hs; [congruence|].
    destruct ls as [|l' ls].
    + cbn [join] in *. now rewrite IH.
    + rewrite join_cons by discriminate. rewrite join_cons in IH by discriminate.
      now rewrite <- IH.
Qed.

Section Untouched.
Context `{Library}.

(** X4. A dashboard that [json.dumps] writes as it came, whose variables
    all have a name other than [cluster], and whose text does not hold
    the sentinel, goes through the patch unchanged. *)
Theorem dashboard_without_cluster_unchanged (content : str)
    (d t : list (str * value)) (variables : list value) :
  json_loads content = Return (VDict d) ->
  json_dumps (VDict d) = content ->
  dict_get d (py "templating") = Some (VDict t) ->
  dict_get t (py "list") = Some (VList variables) ->
  Forall plain_variable variables ->
  contains content sentinel = false ->
  patch_json_for_multicluster_configuration content = Return content.
Proof.
  intros Hloads Hdumps Htemplating Hlist Hplain Hsentinel.
  unfold patch_json_for_multicluster_configuration, patch_body, reconstructed, patch_struct.
  rewrite Hloads. cbn [bind getitem]. rewrite Htemplating. cbn [bind getitem].
  rewrite Hlist. cbn [bind iterate]. rewrite patch_variables_plain by assumption.
  cbn [bind setitem].
  rewrite (dict_set_same t) by assumption. rewrite (dict_set_same d) by assumption.
  rewrite Hdumps.
  pose proof (reconcile_within [] (split content nl) []) as Hsame.
  rewrite app_nil_r in Hsame. cbn [app length] in Hsame.
  rewrite Hsame. cbn [bind].
  rewrite join_split. now rewrite replace_multicluster_absent.
Qed.

End Untouched.

Lemma dashboard_without_cluster_unchanged_witness :
  exists (d t : list (str * value)) (variables : list value),
    json_loads dashboard_without_cluster = Return (VDict d) /\
    json_dumps (VDict d) = dashboard_without_cluster /\
    dict_get d (py "templating") = Some (VDict t) /\
    dict_get t (py "list") = Some (VList variables) /\
    Forall plain_variable variables /\
    contains dashboard_without_cluster sentinel = false /\
    patch_json_for_multicluster_configuration dashboard_without_cluster =
      Return dashboard_without_cluster.
Proof.
  set (variable := [(py "name", VStr (py "node")); (py "hide", VInt 0)]).
  set (t := [(py "list", VList [VDict variable])]).
  set (d := [(py "templating", VDict t); (py "tags", VList [])]).
  assert (Hloads : json_loads dashboard_without_cluster = Return (VDict d))
    by (vm_compute; reflexivity).
  assert (Hdumps : json_dumps (VDict d) = dashboard_without_cluster)
    by (vm_compute; reflexivity).
  assert (Htemplating : dict_get d (py "templating") = Some (VDict t)) by reflexivity.
  assert (Hlist : dict_get t (py "list") = Some (VList [VDict variable])) by reflexivity.
  assert (Hplain : Forall plain_variable [VDict variable]).
  { constructor; [|constructor]. exists variable, (VStr (py "node")).
    repeat split; reflexivity. }
  assert (Hsentinel : contains dashboard_without_cluster sentinel = false)
    by (vm_compute; reflexivity).
  exists d, t, [VDict variable].
  repeat (split; [assumption|]).
  exact (dashboard_without_cluster_unchanged dashboard_without_cluster d t [VDict variable]
           Hloads Hdumps Htemplating Hlist Hplain Hsentinel).
Defined.

(** ** Strings: lines *)

Lemma split_app_sep (a : str) (sep : N) (b : str) :
  split (a ++ sep :: b) sep = split a sep ++ split b sep.
Proof.
  induction a as [|c a IH]; cbn [app split].
  - now rewrite N.eqb_refl.
  - destruct (c =? sep); [now rewrite IH|].
    rewrite IH. pose proof (split_not_nil a sep) as Hne.
    now destruct (split a sep).
Qed.

Lemma split_line (line : str) (sep : N) :
  avoids line sep = true -> split line sep = [line].
Proof.
  induction line as [|c line IH]; [reflexivity|].
  cbn [avoids forallb split]. intros [Hc Hline]%andb_true_iff.
  apply negb_true_iff in Hc. rewrite Hc, IH by assumption. reflexivity.
Qed.

Lemma avoids_app (a b : str) (c : N) : avoids (a ++ b) c = avoids a c && avoids b c.
Proof. apply forallb_app. Qed.

Lemma digits_line (d : Decimal.uint) : avoids (py (NilEmpty.string_of_uint d)) nl = true.
Proof. induction d; [reflexivity | exact IHd ..]. Qed.

Lemma str_of_Z_line (n : Z) : avoids (str_of_Z n) nl = true.
Proof.
  unfold str_of_Z, NilZero.string_of_int.
  destruct (Z.to_int n) as [d|d]; unfold NilZero.string_of_uint.
  all: destruct d; try reflexivity;
    match goal with |- context [NilEmpty.string_of_uint ?u] => exact (digits_line u) end.
Qed.

Lemma contains_left (a b sub : str) :
  contains (a ++ b) sub = false -> contains a sub = false.
Proof.
  induction a as [|c a IH].
  - destruct sub; [|reflexivity]. now destruct b.
  - cbn [app contains]. intros [Hs Hc]%orb_false_iff.
    rewrite IH by assumption.
    destruct (startswith (c :: a) sub) eqn:Hsa; [|reflexivity].
    apply (startswith_extend _ b) in Hsa. cbn [app] in Hsa. congruence.
Qed.

Lemma contains_right (a b sub : str) :
  contains (a ++ b) sub = false -> contains b sub = false.
Proof.
  induction a as [|c a IH]; [trivial|].
  cbn [app contains]. intros [_ Hc]%orb_false_iff. now apply IH.
Qed.

(** ** [json.dumps]: the place of one value in the text *)

Lemma join_first (sep x : str) (l : list str) :
  join sep (x :: l) = x ++ concat (List.map (app sep) l).
Proof.
  revert x. induction l as [|y l IH]; intros x.
  - cbn. now rewrite app_nil_r.
  - rewrite join_cons by discriminate. rewrite IH.
    cbn [List.map concat]. now rewrite <- app_assoc.
Qed.

Lemma join_at (sep : str) (l : list str) (x : str) (r : list str) :
  join sep (l ++ x :: r) =
  concat (List.map (fun a => a ++ sep) l) ++ x ++ concat (List.map (app sep) r).
Proof.
  induction l as [|a l IH].
  - apply join_first.
  - cbn [app List.map concat]. rewrite join_cons by now destruct l.
    rewrite IH. now rewrite <- !app_assoc.
Qed.

Lemma dict_set_at {V : Type} (d : list (str * V)) (k : str) (old : V) :
  dict_get d k = Some old ->
  exists d1 d2 : list (str * V), forall v : V, dict_set d k v = d1 ++ (k, v) :: d2.
Proof.
  induction d as [|[k' v'] d IH]; [discriminate|]. cbn [dict_get dict_set].
  destruct (str_eqb k' k) eqn:Hk.
  - intros _. apply str_eqb_eq in Hk as ->. now exists [], d.
  - intros (d1 & d2 & Hset)%IH. exists ((k', v') :: d1), d2.
    intros v. now rewrite Hset.
Qed.

(** What comes before an item ends with the indentation of the item. *)
Lemma items_before (indent : str) (l : list str) (x : str) :
  exists q : str,
    x ++ indent ++ concat (List.map (fun a => a ++ py "," ++ indent) l) = q ++ indent.
Proof.
  revert x. induction l as [|a l IH]; intros x.
  - exists x. cbn. now rewrite app_nil_r.
  - destruct (IH (x ++ indent ++ a ++ py ",")) as [q Hq]. exists q.
    rewrite <- Hq. cbn [List.map concat]. now rewrite <- !app_assoc.
Qed.

(** What comes after an item is a comma or nothing, and the end of the
    line. *)
Lemma items_after (level level' : nat) (r : list str) (x : str) :
  exists (c r' : str),
    (c = [] \/ c = py ",") /\
    concat (List.map (app (py "," ++ newline_indent level)) r) ++
      newline_indent level' ++ x = c ++ nl :: r'.
Proof.
  destruct r as [|b r].
  - exists [], (times 32 (4 * level') ++ x). split; [now left | reflexivity].
  - exists (py ","). eexists. split; [now right|].
    cbn [List.map concat]. unfold newline_indent at 1. cbn [app].
    rewrite <- !app_assoc. reflexivity.
Qed.

Lemma encode_dict_key (level : nat) (d : list (str * value)) (k : str) (old : value) :
  dict_get d k = Some old ->
  exists (q c r : str),
    (c = [] \/ c = py ",") /\
    forall v : value,
      encode level (VDict (dict_set d k v)) =
      q ++ newline_indent (S level) ++ encode_str k ++ py ": " ++ encode (S level) v ++
      c ++ nl :: r.
Proof.
  intros (d1 & d2 & Hset)%dict_set_at.
  set (item := fun '((k, x) : str * value) => encode_str k ++ py ": " ++ encode (S level) x).
  destruct (items_before (newline_indent (S level)) (List.map item d1) (py "{")) as [q Hq].
  destruct (items_after (S level) level (List.map item d2) (py "}")) as (c & r & Hc & Hr).
  exists q, c, r. split; [assumption|]. intros v. rewrite Hset.
  transitivity
    (py "{" ++ newline_indent (S level) ++
     join (py "," ++ newline_indent (S level)) (List.map item (d1 ++ (k, v) :: d2)) ++
     newline_indent level ++ py "}").
  { now destruct d1. }
  rewrite map_app. cbn [List.map]. rewrite join_at.
  transitivity
    ((py "{" ++ newline_indent (S level) ++
      concat (List.map (fun a => a ++ py "," ++ newline_indent (S level)) (List.map item d1))) ++
     item (k, v) ++
     (concat (List.map (app (py "," ++ newline_indent (S level))) (List.map item d2)) ++
      newline_indent level ++ py "}")).
  { now rewrite <- !app_assoc. }
  rewrite Hq, Hr. subst item. cbn beta iota. now rewrite <- !app_assoc.
Qed.

Lemma encode_dict_at (level : nat) (d : list (str * value)) (k : str) (old : value) :
  dict_get d k = Some old ->
  exists (p s : str),
    forall v : value, encode level (VDict (dict_set d k v)) = p ++ encode (S level) v ++ s.
Proof.
  intros (q & c & r & _ & Hv)%(encode_dict_key level).
  exists (q ++ newline_indent (S level) ++ encode_str k ++ py ": "), (c ++ nl :: r).
  intros v. rewrite Hv. now rewrite <- !app_assoc.
Qed.

Lemma encode_list_at (level : nat) (before after : list value) :
  exists (p s : str),
    forall v : value,
      encode level (VList (before ++ v :: after)) = p ++ encode (S level) v ++ s.
Proof.
  exists (py "[" ++ newline_indent (S level) ++
          concat (List.map (fun a => a ++ py "," ++ newline_indent (S level))
                    (List.map (encode (S level)) before))),
         (concat (List.map (app (py "," ++ newline_indent (S level)))
                    (List.map (encode (S level)) after)) ++
          newline_indent level ++ py "]").
  intros v.
  transitivity
    (py "[" ++ newline_indent (S level) ++
     join (py "," ++ newline_indent (S level))
       (List.map (encode (S level)) (before ++ v :: after)) ++
     newline_indent level ++ py "]").
  { now destruct before. }
  rewrite map_app. cbn [List.map]. rewrite join_at.
  now rewrite <- !app_assoc.
Qed.

(** The dump of a dashboard around the [hide] of one of its variables. *)
Lemma dumps_with_hide (d t : list (str * value)) (before : list value)
    (variable : list (str * value)) (after : list value) (x y z : value) :
  dict_get d (py "templating") = Some x ->
  dict_get t (py "list") = Some y ->
  dict_get variable (py "hide") = Some z ->
  exists (p c s : str),
    (c = [] \/ c = py ",") /\
    forall v : value,
      json_dumps (with_hide d t before variable after v) =
      p ++ newline_indent 4 ++ pyq "~hide~: " ++ encode 4 v ++ c ++ nl :: s.
Proof.
  intros Hd Ht Hv.
  destruct (encode_dict_at 0 d _ _ Hd) as (p0 & s0 & H0).
  destruct (encode_dict_at 1 t _ _ Ht) as (p1 & s1 & H1).
  destruct (encode_list_at 2 before after) as (p2 & s2 & H2).
  destruct (encode_dict_key 3 variable _ _ Hv) as (q & c & r & Hc & H3).
  exists (p0 ++ p1 ++ p2 ++ q), c, (r ++ s2 ++ s1 ++ s0). split; [assumption|].
  intros v. unfold json_dumps, with_hide. rewrite H0, H1, H2, H3.
  rewrite <- !app_assoc. reflexivity.
Qed.

Lemma lines_around_hide (p x c s : str) :
  avoids x nl = true -> c = [] \/ c = py "," ->
  split (p ++ newline_indent 4 ++ pyq "~hide~: " ++ x ++ c ++ nl :: s) nl =
  split p nl ++ (times 32 16 ++ pyq "~hide~: " ++ x ++ c) :: split s nl.
Proof.
  intros Hx Hc. unfold newline_indent. cbn [app]. rewrite split_app_sep. f_equal.
  replace (times 32 (4 * 4) ++ pyq "~hide~: " ++ x ++ c ++ nl :: s)
    with ((times 32 16 ++ pyq "~hide~: " ++ x ++ c) ++ nl :: s)
    by now rewrite <- !app_assoc.
  rewrite split_app_sep, split_line; [reflexivity|].
  rewrite !avoids_app, Hx. now destruct Hc as [-> | ->].
Qed.

(** ** The multicluster patch: one line changed *)

Lemma reconcile_app (orig : list str) (i : nat) (l1 l2 : list str) :
  reconcile orig i (l1 ++ l2) =
  (out1 <- reconcile orig i l1 ;;
   out2 <- reconcile orig (i + length l1) l2 ;;
   Return (out1 ++ out2)).
Proof.
  revert i. induction l1 as [|line l1 IH]; intros i.
  - cbn [app reconcile bind length]. rewrite Nat.add_0_r.
    now destruct (reconcile orig i l2).
  - cbn [app reconcile length]. rewrite IH.
    replace (S i + length l1)%nat with (i + S (length l1))%nat by lia.
    destruct (reconcile_line orig i line); [|reflexivity]. cbn [bind].
    destruct (reconcile orig (S i) l1); [|reflexivity]. cbn [bind].
    destruct (reconcile orig _ l2); [|reflexivity]. cbn [bind].
    now rewrite app_assoc.
Qed.

Lemma reconcile_changed_line (before : list str) (old new : str) (after : list str) :
  contains new (py "[]") = false -> contains new (py "{}") = false ->
  reconcile (before ++ old :: after) 0 (before ++ new :: after) =
  Return (before ++ new :: after).
Proof.
  intros Hsquare Hcurly. rewrite reconcile_app.
  pose proof (reconcile_within [] before (old :: after)) as Hbefore.
  cbn [app length] in Hbefore. rewrite Hbefore. cbn [bind reconcile Nat.add].
  rewrite reconcile_line_plain by assumption. cbn [bind].
  pose proof (reconcile_within (before ++ [old]) after []) as Hafter.
  rewrite app_nil_r, <- app_assoc, length_app, Nat.add_1_r in Hafter.
  cbn [app length] in Hafter. rewrite Hafter. reflexivity.
Qed.

(** ** The multicluster patch: one [cluster] variable *)

Lemma patch_variables_after_plain (before rest : list value) :
  Forall plain_variable before ->
  patch_variables (before ++ rest) =
  (out <- patch_variables rest ;; Return (before ++ out)).
Proof.
  induction 1 as [|v before (d & name & -> & Hname & Hcluster) _ IH].
  - cbn [app]. now destruct (patch_variables rest).
  - cbn [app patch_variables getitem]. rewrite Hname. cbn [bind].
    rewrite Hcluster. cbn [bind]. rewrite IH.
    now destruct (patch_variables rest).
Qed.

Lemma patch_struct_cluster (d t : list (str * value)) (before : list value)
    (variable : list (str * value)) (after : list value) (name : value) :
  dict_get d (py "templating") = Some (VDict t) ->
  dict_get t (py "list") = Some (VList (before ++ VDict variable :: after)) ->
  Forall plain_variable before -> Forall plain_variable after ->
  dict_get variable (py "name") = Some name -> eq_str name (py "cluster") = true ->
  patch_struct (VDict d) = Return (with_hide d t before variable after (VStr sentinel)).
Proof.
  intros Hd Ht Hbefore Hafter Hname Hcluster. unfold patch_struct, with_hide.
  cbn [getitem]. rewrite Hd. cbn [bind getitem]. rewrite Ht. cbn [bind iterate].
  rewrite patch_variables_after_plain by assumption.
  cbn [patch_variables getitem]. rewrite Hname. cbn [bind]. rewrite Hcluster.
  cbn [setitem bind]. rewrite patch_variables_plain by assumption. reflexivity.
Qed.

(** An integer is written on one line. *)
Lemma integer_on_one_line (level : nat) (n : Z) : avoids (encode level (VInt n)) nl = true.
Proof. apply str_of_Z_line. Qed.

Section OneCluster.
Context `{Library}.

(** C3, as amended.  A dashboard as [json.dumps] writes it, whose
    variables all have a name, one of them [cluster], with a [hide] that
    is written on one line, and whose text does not hold the sentinel:
    the patch returns the text with the Helm expression (0 when the
    multicluster flag is set, 2 otherwise) in the place of the value of
    that [hide], and the output holds no sentinel. *)
Theorem cluster_hide_becomes_expression (d t : list (str * value)) (before : list value)
    (variable : list (str * value)) (after : list value) (name old : value) :
  json_loads (json_dumps (VDict d)) = Return (VDict d) ->
  dict_get d (py "templating") = Some (VDict t) ->
  dict_get t (py "list") = Some (VList (before ++ VDict variable :: after)) ->
  Forall plain_variable before -> Forall plain_variable after ->
  dict_get variable (py "name") = Some name -> eq_str name (py "cluster") = true ->
  dict_get variable (py "hide") = Some old -> avoids (encode 4 old) nl = true ->
  contains (json_dumps (VDict d)) sentinel = false ->
  exists p s : str,
    (forall v : value,
       json_dumps (with_hide d t before variable after v) =
       p ++ pyq "~hide~: " ++ encode 4 v ++ s) /\
    json_dumps (VDict d) = p ++ pyq "~hide~: " ++ encode 4 old ++ s /\
    patch_json_for_multicluster_configuration (json_dumps (VDict d)) =
      Return (p ++ pyq "~hide~: " ++ multicluster_expr ++ s) /\
    contains (p ++ pyq "~hide~: " ++ multicluster_expr ++ s) sentinel = false.
Proof.
  intros Hloads Hd Ht Hbefore Hafter Hname Hcluster Hhide Hline Hsentinel.
  destruct (dumps_with_hide d t before variable after _ _ _ Hd Ht Hhide)
    as (p & c & s & Hc & Hdump).
  assert (Hsame : with_hide d t before variable after old = VDict d).
  { unfold with_hide.
    now rewrite (dict_set_same variable), (dict_set_same t), (dict_set_same d). }
  assert (Hold : json_dumps (VDict d) =
                 p ++ newline_indent 4 ++ pyq "~hide~: " ++ encode 4 old ++ c ++ nl :: s).
  { rewrite <- Hsame. apply Hdump. }
  assert (Hnew := Hdump (VStr sentinel)).
  assert (Hp : contains (p ++ newline_indent 4) sentinel = false).
  { apply contains_left with (pyq "~hide~: " ++ encode 4 old ++ c ++ nl :: s).
    rewrite <- app_assoc, <- Hold. exact Hsentinel. }
  assert (Hs : contains (c ++ nl :: s) sentinel = false).
  { apply contains_right with (p ++ newline_indent 4 ++ pyq "~hide~: " ++ encode 4 old).
    rewrite <- !app_assoc, <- Hold. exact Hsentinel. }
  assert (Hrec : reconstructed (json_dumps (VDict d)) =
                 Return ((p ++ newline_indent 4) ++ pyq "~hide~: ~:multicluster:~" ++
                         c ++ nl :: s)).
  { unfold reconstructed. rewrite Hloads. cbn [bind].
    rewrite (patch_struct_cluster d t before variable after name) by assumption.
    cbn [bind]. rewrite Hnew, Hold.
    rewrite !lines_around_hide by (try assumption; reflexivity).
    rewrite reconcile_changed_line by now destruct Hc as [-> | ->].
    cbn [bind]. rewrite <- lines_around_hide by (try assumption; reflexivity).
    rewrite join_split. f_equal. now rewrite <- app_assoc. }
  exists (p ++ newline_indent 4), (c ++ nl :: s).
  split; [intros v; rewrite Hdump; now rewrite <- app_assoc|].
  split; [rewrite Hold; now rewrite <- app_assoc|].
  split.
  - unfold patch_json_for_multicluster_configuration, patch_body.
    rewrite Hrec. cbn [bind]. now rewrite replace_quoted_sentinel.
  - rewrite app_assoc. apply no_sentinel_after_replace; [|assumption].
    now apply no_sentinel_before_hide.
Qed.

End OneCluster.

(** The dashboard of three variables: the [hide] of its [cluster]
    variable, the number 0, gives way to the Helm expression. *)
Lemma cluster_hide_becomes_expression_witness :
  json_loads (json_dumps (VDict dashboard_of_three)) = Return (VDict dashboard_of_three) /\
  dict_get dashboard_of_three (py "templating") = Some (VDict templating_of_three) /\
  dict_get templating_of_three (py "list") =
    Some (VList ([variable_datasource] ++ VDict variable_cluster :: [variable_node])) /\
  Forall plain_variable [variable_datasource] /\
  Forall plain_variable [variable_node] /\
  dict_get variable_cluster (py "name") = Some (VStr (py "cluster")) /\
  eq_str (VStr (py "cluster")) (py "cluster") = true /\
  dict_get variable_cluster (py "hide") = Some (VInt 0) /\
  avoids (encode 4 (VInt 0)) nl = true /\
  contains (json_dumps (VDict dashboard_of_three)) sentinel = false /\
  exists p s : str,
    (forall v : value,
       json_dumps (with_hide dashboard_of_three templating_of_three [variable_datasource]
                     variable_cluster [variable_node] v) =
       p ++ pyq "~hide~: " ++ encode 4 v ++ s) /\
    json_dumps (VDict dashboard_of_three) = p ++ pyq "~hide~: " ++ encode 4 (VInt 0) ++ s /\
    patch_json_for_multicluster_configuration (json_dumps (VDict dashboard_of_three)) =
      Return (p ++ pyq "~hide~: " ++ multicluster_expr ++ s) /\
    contains (p ++ pyq "~hide~: " ++ multicluster_expr ++ s) sentinel = false.
Proof.
  assert (Hloads : json_loads (json_dumps (VDict dashboard_of_three)) =
                   Return (VDict dashboard_of_three)) by (vm_compute; reflexivity).
  assert (Hd : dict_get dashboard_of_three (py "templating") =
               Some (VDict templating_of_three)) by reflexivity.
  assert (Ht : dict_get templating_of_three (py "list") =
               Some (VList ([variable_datasource] ++ VDict variable_cluster ::
                            [variable_node]))) by reflexivity.
  assert (Hbefore : Forall plain_variable [variable_datasource]).
  { constructor; [|constructor]. eexists. exists (VStr (py "datasource")).
    repeat split; reflexivity. }
  assert (Hafter : Forall plain_variable [variable_node]).
  { constructor; [|constructor]. eexists. exists (VStr (py "node")).
    repeat split; reflexivity. }
  assert (Hname : dict_get variable_cluster (py "name") = Some (VStr (py "cluster")))
    by reflexivity.
  assert (Hcluster : eq_str (VStr (py "cluster")) (py "cluster") = true) by reflexivity.
  assert (Hhide : dict_get variable_cluster (py "hide") = Some (VInt 0)) by reflexivity.
  assert (Hline : avoids (encode 4 (VInt 0)) nl = true) by reflexivity.
  assert (Hsentinel : contains (json_dumps (VDict dashboard_of_three)) sentinel = false)
    by (vm_compute; reflexivity).
  repeat (split; [assumption|]).
  exact (cluster_hide_becomes_expression dashboard_of_three templating_of_three
           [variable_datasource] variable_cluster [variable_node] (VStr (py "cluster"))
           (VInt 0) Hloads Hd Ht Hbefore Hafter Hname Hcluster Hhide Hline Hsentinel).
Defined.

(** ** The multicluster patch: the text is written anew *)

Lemma has_literal_false (line : str) :
  has_literal line = false ->
  contains line (py "[]") = false /\ contains line (py "{}") = false.
Proof. apply orb_false_iff. Qed.

Lemma reconcile_plain_lines (orig : list str) (i : nat) (lines : list str) :
  Forall (fun line => has_literal line = false) lines ->
  reconcile orig i lines = Return lines.
Proof.
  intros Hlines. revert i.
  induction Hlines as [|line rest [Hsquare Hcurly]%has_literal_false _ IH]; intros i;
    [reflexivity|].
  cbn [reconcile]. rewrite reconcile_line_plain by assumption.
  cbn [bind]. now rewrite IH.
Qed.

(** A line of a text holds nothing that the text does not hold. *)
Lemma contains_line (s sub : str) (sep : N) (line : str) :
  contains s sub = false -> In line (split s sep) -> contains line sub = false.
Proof.
  intros Hs (before & after & Hlines)%in_split.
  rewrite <- (join_split s sep), Hlines, join_at in Hs.
  apply contains_right in Hs. now apply contains_left in Hs.
Qed.

Section Reformat.
Context `{Library}.

(** X7. Whatever the layout of the content: when its variables all have
    a name other than [cluster] and the dump of what it parses to holds
    no empty literal and no sentinel, the patch returns that dump, not
    the content. *)
Theorem patch_returns_the_dump (content : str) (d t : list (str * value))
    (variables : list value) :
  json_loads content = Return (VDict d) ->
  dict_get d (py "templating") = Some (VDict t) ->
  dict_get t (py "list") = Some (VList variables) ->
  Forall plain_variable variables ->
  contains (json_dumps (VDict d)) (py "[]") = false ->
  contains (json_dumps (VDict d)) (py "{}") = false ->
  contains (json_dumps (VDict d)) sentinel = false ->
  patch_json_for_multicluster_configuration content = Return (json_dumps (VDict d)).
Proof.
  intros Hloads Htemplating Hlist Hplain Hsquare Hcurly Hsentinel.
  unfold patch_json_for_multicluster_configuration, patch_body, reconstructed, patch_struct.
  rewrite Hloads. cbn [bind getitem]. rewrite Htemplating. cbn [bind getitem].
  rewrite Hlist. cbn [bind iterate]. rewrite patch_variables_plain by assumption.
  cbn [bind setitem].
  rewrite (dict_set_same t) by assumption. rewrite (dict_set_same d) by assumption.
  rewrite reconcile_plain_lines.
  - cbn [bind]. rewrite join_split. now rewrite replace_multicluster_absent.
  - apply List.Forall_forall. intros line Hline. unfold has_literal.
    rewrite (contains_line _ _ _ _ Hsquare Hline), (contains_line _ _ _ _ Hcurly Hline).
    reflexivity.
Qed.

End Reformat.

(** A dashboard on one line comes back on five lines. *)
Lemma patch_returns_the_dump_witness :
  let variable := [(py "name", VStr (py "node"))] in
  let t := [(py "list", VList [VDict variable])] in
  let d := [(py "templating", VDict t); (py "title", VStr (py "etcd"))] in
  json_loads compact_dashboard = Return (VDict d) /\
  dict_get d (py "templating") = Some (VDict t) /\
  dict_get t (py "list") = Some (VList [VDict variable]) /\
  Forall plain_variable [VDict variable] /\
  contains (json_dumps (VDict d)) (py "[]") = false /\
  contains (json_dumps (VDict d)) (py "{}") = false /\
  contains (json_dumps (VDict d)) sentinel = false /\
  patch_json_for_multicluster_configuration compact_dashboard = Return (json_dumps (VDict d)).
Proof.
  intros variable t d.
  assert (Hloads : json_loads compact_dashboard = Return (VDict d)) by (vm_compute; reflexivity).
  assert (Htemplating : dict_get d (py "templating") = Some (VDict t)) by reflexivity.
  assert (Hlist : dict_get t (py "list") = Some (VList [VDict variable])) by reflexivity.
  assert (Hplain : Forall plain_variable [VDict variable]).
  { constructor; [|constructor]. exists variable, (VStr (py "node")).
    repeat split; reflexivity. }
  assert (Hsquare : contains (json_dumps (VDict d)) (py "[]") = false)
    by (vm_compute; reflexivity).
  assert (Hcurly : contains (json_dumps (VDict d)) (py "{}") = false)
    by (vm_compute; reflexivity).
  assert (Hsentinel : contains (json_dumps (VDict d)) sentinel = false)
    by (vm_compute; reflexivity).
  repeat (split; [assumption|]).
  exact (patch_returns_the_dump compact_dashboard d t [VDict variable]
           Hloads Htemplating Hlist Hplain Hsquare Hcurly Hsentinel).
Defined.

(** ** The multicluster patch: a dump longer than the original *)

Lemma reconcile_line_beyond (orig : list str) (i : nat) (line : str) :
  has_literal line = true -> (length orig <= i)%nat ->
  reconcile_line orig i line = Raise IndexError.
Proof.
  intros Hliteral Hlength. unfold reconcile_line.
  replace (negb (contains line (py "[]")) && negb (contains line (py "{}")))
    with false.
  - apply nth_error_None in Hlength. now rewrite Hlength.
  - unfold has_literal in Hliteral.
    destruct (contains line (py "[]")), (contains line (py "{}")); try reflexivity.
    discriminate.
Qed.

Lemma reconcile_line_raise (orig : list str) (i : nat) (line : str) (e : exn) :
  reconcile_line orig i line = Raise e ->
  e = IndexError /\ has_literal line = true /\ (length orig <= i)%nat.
Proof.
  unfold reconcile_line, has_literal.
  destruct (contains line (py "[]")) eqn:Hsquare, (contains line (py "{}")) eqn:Hcurly;
    cbn [negb andb orb bind].
  4: discriminate.
  all: destruct (nth_error orig i) as [original|] eqn:Hnth; cbn [bind].
  all: try (intros [= <-]; repeat split; now apply nth_error_None).
  all: destruct (str_eqb line original); [discriminate|].
  all: destruct (endswith line (py ",")); cbn beta iota;
    match goal with |- context [if ?b then _ else _] => destruct b end; discriminate.
Qed.

Lemma reconcile_raise (orig : list str) (i : nat) (lines : list str) (e : exn) :
  reconcile orig i lines = Raise e ->
  e = IndexError /\
  exists (j : nat) (line : str),
    nth_error lines j = Some line /\ has_literal line = true /\ (length orig <= i + j)%nat.
Proof.
  revert i. induction lines as [|line rest IH]; intros i; [discriminate|].
  cbn [reconcile].
  destruct (reconcile_line orig i line) as [out|e'] eqn:Hline; cbn [bind].
  - destruct (reconcile orig (S i) rest) as [out'|e'] eqn:Hrest; cbn [bind]; [discriminate|].
    intros [= <-]. destruct (IH _ Hrest) as (-> & j & line' & Hnth & Hliteral & Hlength).
    split; [reflexivity|]. exists (S j), line'. repeat split; [assumption..|lia].
  - intros [= <-]. destruct (reconcile_line_raise _ _ _ _ Hline) as (-> & Hliteral & Hlength).
    split; [reflexivity|]. exists 0%nat, line. repeat split; [assumption|lia].
Qed.

Lemma reconcile_beyond (orig : list str) (i : nat) (lines : list str) (j : nat) (line : str) :
  nth_error lines j = Some line -> has_literal line = true -> (length orig <= i + j)%nat ->
  reconcile orig i lines = Raise IndexError.
Proof.
  revert i j. induction lines as [|first rest IH]; intros i j Hnth Hliteral Hlength.
  - now destruct j.
  - cbn [reconcile]. destruct j as [|j].
    + injection Hnth as ->. rewrite reconcile_line_beyond by (assumption || lia). reflexivity.
    + destruct (reconcile_line orig i first) as [out|e] eqn:Hline; cbn [bind].
      * rewrite (IH (S i) j) by (assumption || (cbn in Hnth; assumption) || lia). reflexivity.
      * now destruct (reconcile_line_raise _ _ _ _ Hline) as (-> & _).
Qed.

Section Beyond.
Context `{Library}.

(** X8. Once the content is parsed and its structure patched, the only
    exception left is [IndexError], which the [except] clause lets
    through; it is raised exactly when a line of the dump that holds an
    empty literal has a number that the original text has no line
    for. *)
Theorem patch_index_error (content : str) (content_struct patched : value) :
  json_loads content = Return content_struct ->
  patch_struct content_struct = Return patched ->
  (patch_json_for_multicluster_configuration content = Raise IndexError <->
   exists (j : nat) (line : str),
     nth_error (split (json_dumps patched) nl) j = Some line /\
     has_literal line = true /\ (length (split content nl) <= j)%nat) /\
  (forall e : exn,
     patch_json_for_multicluster_configuration content = Raise e -> e = IndexError).
Proof.
  intros Hloads Hstruct.
  unfold patch_json_for_multicluster_configuration, patch_body, reconstructed.
  rewrite Hloads. cbn [bind]. rewrite Hstruct. cbn [bind].
  destruct (reconcile (split content nl) 0 (split (json_dumps patched) nl))
    as [content_array|e] eqn:Hreconcile; cbn [bind].
  - split; [split|]; [discriminate| |discriminate].
    intros (j & line & Hnth & Hliteral & Hlength).
    rewrite (reconcile_beyond _ 0 _ j line) in Hreconcile by (assumption || lia).
    discriminate.
  - destruct (reconcile_raise _ _ _ _ Hreconcile) as (-> & j & line & Hnth & Hliteral & Hlength).
    split; [split|]; [|reflexivity|intros e [= <-]; reflexivity].
    intros _. exists j, line. repeat split; [assumption..|lia].
Qed.

End Beyond.

(** The dashboard on one line whose dump has [[]] on its third line. *)
Lemma patch_index_error_witness :
  let content_struct := VDict [(py "templating", VDict [(py "list", VList [])])] in
  json_loads compact_dashboard_with_literal = Return content_struct /\
  patch_struct content_struct = Return content_struct /\
  nth_error (split (json_dumps content_struct) nl) 2 = Some (pyq "        ~list~: []") /\
  has_literal (pyq "        ~list~: []") = true /\
  (length (split compact_dashboard_with_literal nl) <= 2)%nat /\
  patch_json_for_multicluster_configuration compact_dashboard_with_literal =
    Raise IndexError.
Proof.
  intros content_struct.
  assert (Hloads : json_loads compact_dashboard_with_literal = Return content_struct)
    by (vm_compute; reflexivity).
  assert (Hstruct : patch_struct content_struct = Return content_struct)
    by (vm_compute; reflexivity).
  assert (Hnth : nth_error (split (json_dumps content_struct) nl) 2 =
                 Some (pyq "        ~list~: []")) by (vm_compute; reflexivity).
  assert (Hliteral : has_literal (pyq "        ~list~: []") = true)
    by (vm_compute; reflexivity).
  assert (Hlength : (length (split compact_dashboard_with_literal nl) <= 2)%nat)
    by (vm_compute; lia).
  repeat (split; [assumption|]).
  apply (patch_index_error compact_dashboard_with_literal content_struct content_struct
           Hloads Hstruct).
  exists 2%nat, (pyq "        ~list~: []"). repeat split; assumption.
Defined.

(** ** The multicluster patch: what is not an object *)

Lemma getitem_not_dict (v : value) (k : str) :
  is_dict v = false -> getitem v k = Raise TypeError.
Proof. now destruct v. Qed.

Section TypeErrors.
Context `{Library}.

Lemma patch_raises_type_error (content : str) :
  reconstructed content = Raise TypeError ->
  patch_json_for_multicluster_configuration content = Raise TypeError.
Proof.
  intros Hrec. unfold patch_json_for_multicluster_configuration, patch_body.
  now rewrite Hrec.
Qed.

(** X9. A content that parses to something other than an object, whose
    [templating] is not an object, or whose list has an entry that is
    not an object after entries that have a name other than [cluster],
    makes the patch raise [TypeError]; [write_group_to_file] then raises
    it too and leaves the world as it was. *)
Theorem patch_type_errors (content : str) (v : value) :
  json_loads content = Return v ->
  (is_dict v = false ->
   patch_json_for_multicluster_configuration content = Raise TypeError) /\
  (forall (d : list (str * value)) (templating : value),
     v = VDict d -> dict_get d (py "templating") = Some templating ->
     is_dict templating = false ->
     patch_json_for_multicluster_configuration content = Raise TypeError) /\
  (forall (d t : list (str * value)) (before : list value) (variable : value)
          (after : list value),
     v = VDict d -> dict_get d (py "templating") = Some (VDict t) ->
     dict_get t (py "list") = Some (VList (before ++ variable :: after)) ->
     Forall plain_variable before -> is_dict variable = false ->
     patch_json_for_multicluster_configuration content = Raise TypeError) /\
  (forall (resource_name url destination : str) (w : world),
     patch_json_for_multicluster_configuration content = Raise TypeError ->
     write_group_to_file resource_name content url destination w = (Raise TypeError, w)).
Proof.
  intros Hloads. repeat split.
  - intros Hv. apply patch_raises_type_error. unfold reconstructed, patch_struct.
    rewrite Hloads. cbn [bind]. now rewrite getitem_not_dict.
  - intros d templating -> Htemplating Hdict. apply patch_raises_type_error.
    unfold reconstructed, patch_struct. rewrite Hloads. cbn [bind getitem].
    rewrite Htemplating. cbn [bind]. now rewrite getitem_not_dict.
  - intros d t before variable after -> Htemplating Hlist Hbefore Hdict.
    apply patch_raises_type_error.
    unfold reconstructed, patch_struct. rewrite Hloads. cbn [bind getitem].
    rewrite Htemplating. cbn [bind getitem]. rewrite Hlist. cbn [bind iterate].
    rewrite patch_variables_after_plain by assumption. cbn [patch_variables].
    now rewrite getitem_not_dict.
  - intros resource_name url destination w Hpatch.
    rewrite write_group_to_file_eq, group_lines_eq, Hpatch. reflexivity.
Qed.

End TypeErrors.

(** A JSON list, and a list of variables with a string in it. *)
Lemma patch_type_errors_witness :
  json_loads dashboard_list = Return (VList [VStr (py "etcd")]) /\
  is_dict (VList [VStr (py "etcd")]) = false /\
  patch_json_for_multicluster_configuration dashboard_list = Raise TypeError /\
  write_group_to_file (py "etcd") dashboard_list etcd_url dashboards_dir empty_world =
    (Raise TypeError, empty_world) /\
  patch_json_for_multicluster_configuration dashboard_with_string_variable =
    Raise TypeError.
Proof.
  assert (Hloads : json_loads dashboard_list = Return (VList [VStr (py "etcd")]))
    by (vm_compute; reflexivity).
  assert (Hdict : is_dict (VList [VStr (py "etcd")]) = false) by reflexivity.
  destruct (patch_type_errors dashboard_list _ Hloads) as (Hlist & _ & _ & Hwrite).
  repeat (split; [assumption|]).
  split; [exact (Hlist Hdict)|]. split; [exact (Hwrite _ _ _ _ (Hlist Hdict))|].
  set (variable := VDict [(py "name", VStr (py "node"))]).
  set (t := [(py "list", VList ([variable] ++ VStr (py "cluster") :: []))]).
  set (d := [(py "templating", VDict t)]).
  assert (Hloads' : json_loads dashboard_with_string_variable = Return (VDict d))
    by (vm_compute; reflexivity).
  destruct (patch_type_errors dashboard_with_string_variable _ Hloads')
    as (_ & _ & Hvariable & _).
  apply (Hvariable d t [variable] (VStr (py "cluster")) []); try reflexivity.
  constructor; [|constructor]. eexists. exists (VStr (py "node")).
  repeat split; reflexivity.
Defined.

(** ** The multicluster patch: where the rebuilt text starts *)

Lemma patch_struct_dict (content_struct patched : value) :
  patch_struct content_struct = Return patched ->
  exists (item : str * value) (d : list (str * value)), patched = VDict (item :: d).
Proof.
  unfold patch_struct. destruct content_struct as [| | | | | |d]; try discriminate.
  cbn [getitem]. destruct (dict_get d (py "templating")) as [templating|]; [|discriminate].
  cbn [bind].
  destruct (getitem templating (py "list")) as [variables|]; [|discriminate]. cbn [bind].
  destruct (iterate variables) as [variables'|]; [|discriminate]. cbn [bind].
  destruct (patch_variables variables') as [overwrite_list|]; [|discriminate]. cbn [bind].
  destruct (setitem templating (py "list") (VList overwrite_list)) as [templating'|];
    [|discriminate].
  cbn [bind setitem]. intros [= <-].
  destruct d as [|[k x] d]; cbn [dict_set]; [eauto|].
  destruct (str_eqb k (py "templating")); eauto.
Qed.

Lemma find_from_bound (sub s : str) (i : Z) :
  find_from sub i s = (-1)%Z \/ (i <= find_from sub i s)%Z.
Proof.
  revert i. induction s as [|c s IH]; intros i; cbn [find_from].
  - destruct (startswith [] sub); [right; lia | now left].
  - destruct (startswith (c :: s) sub); [right; lia|].
    destruct (IH (i + 1)%Z) as [Hnone | Hfound]; [now left | right; lia].
Qed.

Section Rebuilt.
Context `{Library}.

(** X10. The rebuilt text starts with an opening brace, so the index of
    the sentinel is never 0 and [content[:multicluster-1]] never counts
    from the end. *)
Theorem rebuilt_text_starts_with_brace (content text : str) :
  reconstructed content = Return text ->
  startswith text (py "{") = true /\ find text sentinel <> 0%Z.
Proof.
  unfold reconstructed.
  destruct (json_loads content) as [content_struct|]; [|discriminate]. cbn [bind].
  destruct (patch_struct content_struct) as [patched|] eqn:Hstruct; [|discriminate].
  cbn [bind]. destruct (patch_struct_dict _ _ Hstruct) as ([k x] & d & ->).
  assert (Hlines : exists rest,
             split (json_dumps (VDict ((k, x) :: d))) nl = py "{" :: rest).
  { eexists. unfold json_dumps. cbn [encode]. unfold newline_indent.
    change (py "{" ++ (nl :: ?r) ++ ?j ++ ?s) with (py "{" ++ nl :: (r ++ j ++ s)).
    rewrite split_app_sep. reflexivity. }
  destruct Hlines as [rest ->]. cbn [reconcile].
  rewrite reconcile_line_plain by reflexivity. cbn [bind].
  destruct (reconcile _ 1 rest) as [content_array|]; [|discriminate]. cbn [bind app].
  intros Htext.
  replace text with (join [nl] (py "{" :: content_array)) by congruence.
  assert (Hjoin : exists r, join [nl] (py "{" :: content_array) = 123 :: r).
  { destruct content_array; eexists; reflexivity. }
  destruct Hjoin as [r ->]. split; [reflexivity|].
  unfold find. cbn [find_from]. change (startswith (123 :: r) sentinel) with false.
  cbn iota. destruct (find_from_bound sentinel r (0 + 1)) as [-> | Hfound]; lia.
Qed.

End Rebuilt.

(** The dashboard with one [cluster] variable. *)
Lemma rebuilt_text_starts_with_brace_witness :
  reconstructed dashboard_with_cluster =
    Return (dashboard_before_hide ++ pyq "~hide~: ~:multicluster:~" ++ dashboard_after_hide) /\
  startswith (dashboard_before_hide ++ pyq "~hide~: ~:multicluster:~" ++ dashboard_after_hide)
    (py "{") = true /\
  find (dashboard_before_hide ++ pyq "~hide~: ~:multicluster:~" ++ dashboard_after_hide)
    sentinel <> 0%Z.
Proof.
  assert (Hrec : reconstructed dashboard_with_cluster =
                 Return (dashboard_before_hide ++ pyq "~hide~: ~:multicluster:~" ++
                         dashboard_after_hide)) by (vm_compute; reflexivity).
  split; [exact Hrec|].
  exact (rebuilt_text_starts_with_brace _ _ Hrec).
Defined.

(** ** The multicluster patch: around the sentinel *)

Lemma contains_after (a b sub : str) :
  contains b sub = true -> contains (a ++ b) sub = true.
Proof.
  intros Hb. induction a as [|c a IH]; [exact Hb|].
  cbn [app contains]. rewrite IH. apply orb_true_r.
Qed.

(** X11. The first sentinel goes with the character before it and the
    character after it, whatever they are, also when the sentinel ends
    the text; a sentinel further on stays. *)
Theorem sentinel_taken_with_its_neighbours (a : str) (q1 q2 : N) (s : str) :
  avoids sentinel q1 = true -> contains a sentinel = false ->
  replace_multicluster (a ++ q1 :: sentinel ++ q2 :: s) = a ++ multicluster_expr ++ s /\
  replace_multicluster (a ++ q1 :: sentinel) = a ++ multicluster_expr /\
  (contains s sentinel = true ->
   contains (replace_multicluster (a ++ q1 :: sentinel ++ q2 :: s)) sentinel = true).
Proof.
  intros Hq Ha.
  assert (Hfirst : replace_multicluster (a ++ q1 :: sentinel ++ q2 :: s) =
                   a ++ multicluster_expr ++ s) by now apply replace_multicluster_first.
  split; [exact Hfirst|]. split.
  - replace (a ++ q1 :: sentinel) with (a ++ q1 :: sentinel ++ [])
      by now rewrite app_nil_r.
    unfold replace_multicluster. rewrite find_after_sep by assumption.
    replace (_ =? -1)%Z with false by (symmetry; apply Z.eqb_neq; lia).
    rewrite <- (app_nil_r multicluster_expr) at 2. f_equal; [|f_equal].
    + unfold slice_to.
      replace (_ <? 0)%Z with false by (symmetry; apply Z.ltb_ge; lia).
      replace (Z.to_nat _) with (length a) by lia.
      now rewrite take_app_length.
    + unfold slice_from.
      replace (_ <? 0)%Z with false by (symmetry; apply Z.ltb_ge; lia).
      apply drop_ge. rewrite length_app. cbn [length]. rewrite length_app.
      change (length sentinel) with 14%nat. cbn [length]. lia.
  - intros Hs. rewrite Hfirst, app_assoc. now apply contains_after.
Qed.

(** The sentinel between two spaces in a title: the spaces go with it. *)
Lemma sentinel_taken_with_its_neighbours_witness :
  avoids sentinel 32 = true /\
  contains title_before_sentinel sentinel = false /\
  replace_multicluster (title_before_sentinel ++ 32 :: sentinel ++ 32 :: title_after_sentinel) =
    title_before_sentinel ++ multicluster_expr ++ title_after_sentinel /\
  replace_multicluster (title_before_sentinel ++ 32 :: sentinel) =
    title_before_sentinel ++ multicluster_expr.
Proof.
  assert (Hq : avoids sentinel 32 = true) by reflexivity.
  assert (Ha : contains title_before_sentinel sentinel = false) by (vm_compute; reflexivity).
  destruct (sentinel_taken_with_its_neighbours title_before_sentinel 32 32
              title_after_sentinel Hq Ha) as (Hfirst & Hend & _).
  repeat (split; [assumption|]). exact Hend.
Defined.

(** ** The run: what it leaves alone *)

Section Run.
Context `{Library}.

(** X12. A run deletes nothing: every file that was there is still
    there, every directory too, and the lines printed before are
    followed by the lines of the run. *)
Theorem main_only_adds (get : str -> response) (w : world) :
  (forall path : str,
     is_Some (files w !! path) -> is_Some (files (main get w).2 !! path)) /\
  dirs w ⊆ dirs (main get w).2 /\
  exists lines : list str, stdout (main get w).2 = stdout w ++ lines.
Proof.
  destruct (uniform_main get) as (r & e & Hmain). rewrite Hmain. cbn [snd apply_effect files dirs stdout].
  repeat split.
  - intros path Hsome. rewrite lookup_write_all.
    now destruct (write_all (writes e) ∅ !! path).
  - set_solver.
  - now exists (printed e).
Qed.

Lemma process_chart_skipped (get : str -> response) (c : chart) (w : world) :
  status_code (get (source c)) <> 200%Z ->
  process_chart get c w =
  (Return tt, {| files := files w; dirs := dirs w; stdout := stdout w ++ skip_lines get c |}).
Proof.
  intros Hstatus. unfold process_chart, io_bind, print, skip_lines.
  apply Z.eqb_neq in Hstatus. rewrite Hstatus. cbn [negb files dirs stdout].
  now rewrite <- app_assoc.
Qed.

Lemma main_loop_all_skipped (get : str -> response) (cs : list chart) (w : world) :
  Forall (fun c => status_code (get (source c)) <> 200%Z) cs ->
  main_loop get cs w =
  (Return tt, {| files := files w; dirs := dirs w;
                 stdout := stdout w ++ concat (List.map (skip_lines get) cs) |}).
Proof.
  intros Hcs. revert w. unfold main_loop.
  induction Hcs as [|c cs Hc _ IH]; intros w.
  - cbn [for_each List.map concat]. unfold io_return. rewrite app_nil_r. now destruct w.
  - cbn [for_each]. unfold io_bind at 1. rewrite process_chart_skipped by assumption.
    rewrite IH. cbn [files dirs stdout List.map concat]. now rewrite <- app_assoc.
Qed.

(** X13. When no source answers 200, the run ends normally: it writes
    no file, makes no directory, and prints two lines for each source
    and [Finished]. *)
Theorem all_sources_unavailable (get : str -> response) (w : world) :
  Forall (fun c => status_code (get (source c)) <> 200%Z) charts ->
  main get w =
  (Return tt, {| files := files w; dirs := dirs w;
                 stdout := stdout w ++ concat (List.map (skip_lines get) charts) ++
                           [py "Finished"] |}).
Proof.
  intros Hcharts. unfold main, io_bind. rewrite main_loop_all_skipped by assumption.
  unfold print. cbn [files dirs stdout]. now rewrite <- app_assoc.
Qed.

Lemma for_each_app {A : Type} (l1 l2 : list A) (body : A -> io unit) (w : world) :
  for_each (l1 ++ l2) body w =
  match for_each l1 body w with
  | (Return _, w1) => for_each l2 body w1
  | (Raise e, w1) => (Raise e, w1)
  end.
Proof.
  revert w. induction l1 as [|a l1 IH]; intros w; [reflexivity|].
  cbn [app for_each]. unfold io_bind.
  destruct (body a w) as [[[]|e] w1]; [apply IH | reflexivity].
Qed.

(** X14. An exception in one source ends the run there: the sources
    before it have been processed, the ones after it are not fetched,
    and [Finished] is not printed. *)
Theorem exception_ends_run (get : str -> response) (before : list chart) (c : chart)
    (after : list chart) (w w1 w2 : world) (e : exn) :
  main_loop get before w = (Return tt, w1) ->
  process_chart get c w1 = (Raise e, w2) ->
  main_loop get (before ++ c :: after) w = (Raise e, w2) /\
  (charts = before ++ c :: after -> main get w = (Raise e, w2)).
Proof.
  intros Hbefore Hc.
  assert (Hloop : main_loop get (before ++ c :: after) w = (Raise e, w2)).
  { unfold main_loop in *. rewrite for_each_app, Hbefore.
    cbn [for_each]. unfold io_bind. now rewrite Hc. }
  split; [exact Hloop|].
  intros Hcharts. unfold main, io_bind. now rewrite Hcharts, Hloop.
Qed.

(** X15. A source that answers 200 with a body that does not parse, a
    YAML document without [items], or a JSON text that is not an object,
    raises (the parse error, [KeyError], [AttributeError]) after the
    progress line; nothing is written. *)
Theorem source_errors (get : str -> response) (c : chart) (w : world) :
  status_code (get (source c)) = 200%Z ->
  let raw_text := text (get (source c)) in
  let w1 := {| files := files w; dirs := dirs w;
               stdout := stdout w ++ [py "Generating dashboards from " ++ source c] |} in
  (forall e : exn,
     type c = py "yaml" -> yaml_full_load raw_text = Raise e ->
     process_chart get c w = (Raise e, w1)) /\
  (forall d : list (str * value),
     type c = py "yaml" -> yaml_full_load raw_text = Return (VDict d) ->
     dict_get d (py "items") = None ->
     process_chart get c w = (Raise KeyError, w1)) /\
  (forall e : exn,
     type c = py "json" -> json_loads raw_text = Raise e ->
     process_chart get c w = (Raise e, w1)) /\
  (forall v : value,
     type c = py "json" -> json_loads raw_text = Return v -> is_dict v = false ->
     process_chart get c w = (Raise AttributeError, w1)).
Proof.
  intros Hstatus raw_text w1.
  assert (Hchart : process_chart get c w =
                   if str_eqb (type c) (py "yaml") then process_yaml c raw_text w1
                   else if str_eqb (type c) (py "json") then process_json c raw_text w1
                   else (Return tt, w1)).
  { unfold process_chart, io_bind, print. rewrite Hstatus. cbn [Z.eqb Pos.eqb negb].
    fold raw_text. fold w1.
    destruct (str_eqb (type c) (py "yaml")); [reflexivity|].
    now destruct (str_eqb (type c) (py "json")). }
  rewrite Hchart. repeat split.
  - intros e -> Hload. cbn. unfold process_yaml, io_bind, lift. now rewrite Hload.
  - intros d -> Hload Hitems. cbn. unfold process_yaml, io_bind, lift.
    rewrite Hload. cbn [getitem]. now rewrite Hitems.
  - intros e -> Hload. cbn. unfold process_json, io_bind, lift. now rewrite Hload.
  - intros v -> Hload Hdict. cbn. unfold process_json, io_bind, lift.
    rewrite Hload. now destruct v.
Qed.

End Run.

(** Every source answers 503. *)
Lemma all_sources_unavailable_witness :
  let get := always 503 (py "Service Unavailable") in
  Forall (fun c => status_code (get (source c)) <> 200%Z) charts /\
  main get empty_world =
  (Return tt, {| files := ∅; dirs := ∅;
                 stdout := [] ++ concat (List.map (skip_lines get) charts) ++
                           [py "Finished"] |}).
Proof.
  intros get.
  assert (Hcharts : Forall (fun c => status_code (get (source c)) <> 200%Z) charts).
  { apply List.Forall_forall. intros c _. cbn. lia. }
  split; [exact Hcharts|].
  exact (all_sources_unavailable get empty_world Hcharts).
Defined.

(** The first source answers 404 and is skipped; the second one answers
    with a JSON list, and the run ends there. *)
Lemma exception_ends_run_witness :
  let get := serve etcd_url (py "[]") in
  let w1 := {| files := ∅; dirs := ∅; stdout := skip_lines get kube_prometheus_chart |} in
  let w2 := {| files := ∅; dirs := ∅;
               stdout := skip_lines get kube_prometheus_chart ++
                         [py "Generating dashboards from " ++ etcd_url] |} in
  main_loop get [kube_prometheus_chart] empty_world = (Return tt, w1) /\
  process_chart get etcd_chart w1 = (Raise AttributeError, w2) /\
  main_loop get ([kube_prometheus_chart] ++ etcd_chart :: drop 2 charts) empty_world =
    (Raise AttributeError, w2) /\
  charts = [kube_prometheus_chart] ++ etcd_chart :: drop 2 charts /\
  main get empty_world = (Raise AttributeError, w2).
Proof.
  intros get w1 w2.
  assert (Hbefore : main_loop get [kube_prometheus_chart] empty_world = (Return tt, w1))
    by (vm_compute; reflexivity).
  assert (Hc : process_chart get etcd_chart w1 = (Raise AttributeError, w2))
    by (vm_compute; reflexivity).
  assert (Hcharts : charts = [kube_prometheus_chart] ++ etcd_chart :: drop 2 charts)
    by reflexivity.
  destruct (exception_ends_run get [kube_prometheus_chart] etcd_chart (drop 2 charts)
              empty_world w1 w2 AttributeError Hbefore Hc) as [Hloop Hmain].
  repeat (split; [assumption|]). exact (Hmain Hcharts).
Defined.

(** The etcd source answers with a JSON list. *)
Lemma source_errors_witness :
  let get := serve etcd_url (py "[]") in
  status_code (get (source etcd_chart)) = 200%Z /\
  type etcd_chart = py "json" /\
  json_loads (text (get (source etcd_chart))) = Return (VList []) /\
  is_dict (VList []) = false /\
  process_chart get etcd_chart empty_world =
    (Raise AttributeError,
     {| files := ∅; dirs := ∅;
        stdout := [] ++ [py "Generating dashboards from " ++ etcd_url] |}).
Proof.
  intros get.
  assert (Hstatus : status_code (get (source etcd_chart)) = 200%Z) by reflexivity.
  assert (Htype : type etcd_chart = py "json") by reflexivity.
  assert (Hloads : json_loads (text (get (source etcd_chart))) = Return (VList []))
    by (vm_compute; reflexivity).
  assert (Hdict : is_dict (VList []) = false) by reflexivity.
  repeat (split; [assumption|]).
  destruct (source_errors get etcd_chart empty_world Hstatus) as (_ & _ & _ & Hlist).
  exact (Hlist (VList []) Htype Hloads Hdict).
Defined.

(** ** The sources: one file for each entry *)

Section Entries.
Context `{Library}.








End Entries.



(** ** The run: the files it touches *)






Section Touched.
Context `{Library}.





End Touched.


(** ** The emit step: texts without braces *)

Lemma replace_absent (s old new : str) :
  old <> [] -> contains s old = false -> replace s old new = s.
Proof.
  intros Hold. induction s as [|c s IH]; intros Hs.
  - now apply replace_nil.
  - cbn [contains] in Hs. apply orb_false_iff in Hs as [Hstart Hrest].
    rewrite replace_nomatch by assumption. now rewrite IH.
Qed.

Lemma contains_longer (s p q : str) :
  contains s p = false -> contains s (p ++ q) = false.
Proof.
  induction s as [|c s IH]; cbn [contains].
  - rewrite !orb_false_r. intros Hp.
    destruct (startswith [] (p ++ q)) eqn:Hpq; [|reflexivity].
    apply startswith_prefix in Hpq. congruence.
  - intros [Hp Hs]%orb_false_iff. rewrite IH by assumption. rewrite orb_false_r.
    destruct (startswith (c :: s) (p ++ q)) eqn:Hpq; [|reflexivity].
    apply startswith_prefix in Hpq. congruence.
Qed.

Lemma escape_without_pairs (s : str) :
  contains s (py "{{") = false -> contains s (py "}}") = false -> escape s = s.
Proof.
  intros Hopen Hclose. unfold escape.
  rewrite (replace_absent s (py "{{")) by (discriminate || assumption).
  rewrite (replace_absent s (py "}}")) by (discriminate || assumption).
  rewrite (replace_absent s (py "{{`{{")).
  - apply replace_absent; [discriminate|].
    now apply (contains_longer s (py "}}") (py "`}}")).
  - discriminate.
  - now apply (contains_longer s (py "{{") (py "`{{")).
Qed.

Lemma unescape_without_pairs (s : str) :
  contains s (py "\{\{") = false -> contains s (py "\}\}") = false -> unescape s = s.
Proof.
  intros Hopen Hclose. unfold unescape.
  rewrite (replace_absent s (py "\{\{")) by (discriminate || assumption).
  now apply replace_absent.
Qed.

Lemma splitlines_line (cur line rest : str) :
  one_line line = true ->
  splitlines_from cur (line ++ nl :: rest) = (cur ++ line ++ [nl]) :: splitlines_from [] rest.
Proof.
  revert cur. induction line as [|c line IH]; intros cur Hline; [reflexivity|].
  cbn [one_line forallb] in Hline. apply andb_true_iff in Hline as [Hc Hline].
  apply negb_true_iff in Hc. cbn [app splitlines_from].
  assert (Hcr : (c =? 13) = false).
  { destruct (c =? 13) eqn:E; [|reflexivity]. apply N.eqb_eq in E. subst c. discriminate. }
  rewrite Hcr, Hc, IH by assumption. now rewrite <- app_assoc.
Qed.

Lemma textwrap_indent_lines (prefix : str) (lines : list str) :
  Forall (fun line => one_line line = true) lines ->
  textwrap_indent (concat (List.map (fun line => line ++ [nl]) lines)) prefix =
  indented prefix lines.
Proof.
  unfold textwrap_indent, indented.
  induction 1 as [|line lines Hline _ IH]; [reflexivity|].
  cbn [List.map concat]. rewrite <- app_assoc. cbn [app].
  rewrite splitlines_line by assumption. cbn [List.map concat app].
  rewrite IH. unfold blank. rewrite forallb_app. cbn [forallb].
  change (isspace nl) with true. rewrite !andb_true_r.
  destruct (forallb isspace line); now rewrite <- ?app_assoc.
Qed.

Section Plain.
Context `{Library}.

(** X19. A dumped text made of lines that end with a newline, without
    a pair of braces, escaped or not: [yaml_str_repr] puts two spaces
    before every line that is not blank and changes nothing else. *)
Theorem yaml_str_repr_plain (key content : str) (lines : list str) :
  yaml_dump key content = concat (List.map (fun line => line ++ [nl]) lines) ->
  Forall (fun line => one_line line = true) lines ->
  contains (yaml_dump key content) (py "{{") = false ->
  contains (yaml_dump key content) (py "}}") = false ->
  contains (yaml_dump key content) (py "\{\{") = false ->
  contains (yaml_dump key content) (py "\}\}") = false ->
  yaml_str_repr key content = indented (py "  ") lines.
Proof.
  intros Hdump Hlines Hopen Hclose Heopen Heclose. unfold yaml_str_repr.
  rewrite escape_without_pairs by assumption.
  rewrite unescape_without_pairs by assumption.
  rewrite Hdump. now apply textwrap_indent_lines.
Qed.

End Plain.

(** The literal block of a dashboard of three lines. *)
Lemma yaml_str_repr_plain_witness :
  let lines := [pyq "etcd.json: |-"; pyq "  {"; pyq "      ~title~: ~etcd~"; pyq "  }"] in
  yaml_dump (py "etcd.json") dashboard_without_templating =
    concat (List.map (fun line => line ++ [nl]) lines) /\
  Forall (fun line => one_line line = true) lines /\
  contains (yaml_dump (py "etcd.json") dashboard_without_templating) (py "{{") = false /\
  contains (yaml_dump (py "etcd.json") dashboard_without_templating) (py "}}") = false /\
  contains (yaml_dump (py "etcd.json") dashboard_without_templating) (py "\{\{") = false /\
  contains (yaml_dump (py "etcd.json") dashboard_without_templating) (py "\}\}") = false /\
  yaml_str_repr (py "etcd.json") dashboard_without_templating = indented (py "  ") lines.
Proof.
  intros lines.
  assert (Hdump : yaml_dump (py "etcd.json") dashboard_without_templating =
                  concat (List.map (fun line => line ++ [nl]) lines))
    by (vm_compute; reflexivity).
  assert (Hlines : Forall (fun line => one_line line = true) lines)
    by (repeat constructor).
  assert (Hopen : contains (yaml_dump (py "etcd.json") dashboard_without_templating)
                    (py "{{") = false) by (vm_compute; reflexivity).
  assert (Hclose : contains (yaml_dump (py "etcd.json") dashboard_without_templating)
                     (py "}}") = false) by (vm_compute; reflexivity).
  assert (Heopen : contains (yaml_dump (py "etcd.json") dashboard_without_templating)
                     (py "\{\{") = false) by (vm_compute; reflexivity).
  assert (Heclose : contains (yaml_dump (py "etcd.json") dashboard_without_templating)
                      (py "\}\}") = false) by (vm_compute; reflexivity).
  repeat (split; [assumption|]).
  exact (yaml_str_repr_plain (py "etcd.json") dashboard_without_templating lines
           Hdump Hlines Hopen Hclose Heopen Heclose).
Defined.

(** ** The sources: the name of the file *)


Section Names.
Context `{Library}.


End Names.


(** ** The emit step: the outcome *)

Section Outcome.
Context `{Library}.


End Outcome.

(** ** The multicluster patch: a dump without empty literals *)

Section WithoutLiterals.
Context `{Library}.

(** X22. When the dump of the patched structure holds no empty literal,
    the patch returns that dump with its first sentinel replaced; the
    layout of the content plays no part. *)
Theorem patch_without_literals (content : str) (content_struct patched : value) :
  json_loads content = Return content_struct ->
  patch_struct content_struct = Return patched ->
  contains (json_dumps patched) (py "[]") = false ->
  contains (json_dumps patched) (py "{}") = false ->
  patch_json_for_multicluster_configuration content =
    Return (replace_multicluster (json_dumps patched)).
Proof.
  intros Hloads Hstruct Hsquare Hcurly.
  unfold patch_json_for_multicluster_configuration, patch_body, reconstructed.
  rewrite Hloads. cbn [bind]. rewrite Hstruct. cbn [bind].
  rewrite reconcile_plain_lines.
  - cbn [bind]. now rewrite join_split.
  - apply List.Forall_forall. intros line Hline. unfold has_literal.
    rewrite (contains_line _ _ _ _ Hsquare Hline), (contains_line _ _ _ _ Hcurly Hline).
    reflexivity.
Qed.

End WithoutLiterals.

(** A [cluster] variable without [hide] gets one, with the Helm
    expression as its value. *)
Lemma patch_without_literals_witness :
  let content_struct :=
    VDict [(py "templating",
            VDict [(py "list", VList [VDict [(py "name", VStr (py "cluster"))]])])] in
  let patched :=
    VDict [(py "templating",
            VDict [(py "list", VList [VDict [(py "name", VStr (py "cluster"));
                                             (py "hide", VStr sentinel)]])])] in
  json_loads compact_dashboard_with_cluster = Return content_struct /\
  patch_struct content_struct = Return patched /\
  contains (json_dumps patched) (py "[]") = false /\
  contains (json_dumps patched) (py "{}") = false /\
  patch_json_for_multicluster_configuration compact_dashboard_with_cluster =
    Return (replace_multicluster (json_dumps patched)) /\
  contains (replace_multicluster (json_dumps patched)) (pyq "~hide~: " ++ multicluster_expr) =
    true.
Proof.
  intros content_struct patched.
  assert (Hloads : json_loads compact_dashboard_with_cluster = Return content_struct)
    by (vm_compute; reflexivity).
  assert (Hstruct : patch_struct content_struct = Return patched)
    by (vm_compute; reflexivity).
  assert (Hsquare : contains (json_dumps patched) (py "[]") = false)
    by (vm_compute; reflexivity).
  assert (Hcurly : contains (json_dumps patched) (py "{}") = false)
    by (vm_compute; reflexivity).
  repeat (split; [assumption|]).
  split; [|vm_compute; reflexivity].
  exact (patch_without_literals compact_dashboard_with_cluster content_struct patched
           Hloads Hstruct Hsquare Hcurly).
Defined.
